(** * Listener reconciliation (internal/alb/ls/listener.go)

    A shallow embedding of the listener controller of the ALB ingress
    controller, and the properties of its specification.

    Conventions of the embedding:
    - a Go pointer [*T] is an [option T], [None] being [nil];
    - a Go slice [[]T] is a [slice T], an [option (list T)]: the nil slice
      and the empty slice are different values (and are told apart by the
      deep equality the controller uses);
    - a Go [error] is the text its [Error()] method yields; the [nil]
      error is [None];
    - dereferencing [nil] and indexing out of range panic: functions that
      can do so return in [outcome];
    - the cloud API and the rules controller are collaborators: their
      behaviour is a parameter, a function on an abstract world [W];
    - every call the controller makes to the cloud API, to the rules
      controller and to [util.DeepEqual] is recorded, in order, in a trace
      of calls, so that which calls are made, and how many, can be stated;
    - the [context.Context] argument is only passed along and is omitted. *)

From stdpp Require Import base option list strings pretty countable gmap.

#[local] Open Scope string_scope.
#[local] Open Scope list_scope.
#[local] Open Scope Z_scope.

Definition slice (A : Type) : Type := option (list A).

Definition error : Type := string.

(** ** Panics *)

Inductive panic : Type :=
| NilDereference
| IndexOutOfRange.

Inductive outcome (A : Type) : Type :=
| Returns (a : A)
| Panics (p : panic).
Arguments Returns {A} a.
Arguments Panics {A} p.

#[global] Instance outcome_ret : MRet outcome := fun _ a => Returns a.
#[global] Instance outcome_bind : MBind outcome := fun _ _ f m =>
  match m with
  | Returns a => f a
  | Panics p => Panics p
  end.

(** [*p] *)
Definition deref {A : Type} (p : option A) : outcome A :=
  match p with
  | Some a => Returns a
  | None => Panics NilDereference
  end.

(** [s[0]] *)
Definition index0 {A : Type} (s : slice A) : outcome A :=
  match s with
  | Some (a :: _) => Returns a
  | _ => Panics IndexOutOfRange
  end.

(** ** The AWS SDK's elbv2 types (the members of the API shapes) *)

Module elbv2.

Definition ProtocolEnumHttps : string := "HTTPS".
Definition ActionTypeEnumForward : string := "forward".

Module Certificate.
Record t : Type := mk {
  CertificateArn : option string;
  IsDefault : option bool
}.
#[global] Instance eq_dec : EqDecision t.
Proof. solve_decision. Defined.
End Certificate.

Module FixedResponseActionConfig.
Record t : Type := mk {
  ContentType : option string;
  MessageBody : option string;
  StatusCode : option string
}.
#[global] Instance eq_dec : EqDecision t.
Proof. solve_decision. Defined.
End FixedResponseActionConfig.

Module RedirectActionConfig.
Record t : Type := mk {
  Host : option string;
  Path : option string;
  Port : option string;
  Protocol : option string;
  Query : option string;
  StatusCode : option string
}.
#[global] Instance eq_dec : EqDecision t.
Proof. solve_decision. Defined.
End RedirectActionConfig.

Module AuthenticateCognitoActionConfig.
Record t : Type := mk {
  AuthenticationRequestExtraParams : option (gmap string (option string));
  OnUnauthenticatedRequest : option string;
  Scope : option string;
  SessionCookieName : option string;
  SessionTimeout : option Z;
  UserPoolArn : option string;
  UserPoolClientId : option string;
  UserPoolDomain : option string
}.
#[global] Instance eq_dec : EqDecision t.
Proof. solve_decision. Defined.
End AuthenticateCognitoActionConfig.

Module AuthenticateOidcActionConfig.
Record t : Type := mk {
  AuthenticationRequestExtraParams : option (gmap string (option string));
  AuthorizationEndpoint : option string;
  ClientId : option string;
  ClientSecret : option string;
  Issuer : option string;
  OnUnauthenticatedRequest : option string;
  Scope : option string;
  SessionCookieName : option string;
  SessionTimeout : option Z;
  TokenEndpoint : option string;
  UserInfoEndpoint : option string
}.
#[global] Instance eq_dec : EqDecision t.
Proof. solve_decision. Defined.
End AuthenticateOidcActionConfig.

Module Action.
Record t : Type := mk {
  AuthenticateCognitoConfig : option AuthenticateCognitoActionConfig.t;
  AuthenticateOidcConfig : option AuthenticateOidcActionConfig.t;
  FixedResponseConfig : option FixedResponseActionConfig.t;
  Order : option Z;
  RedirectConfig : option RedirectActionConfig.t;
  TargetGroupArn : option string;
  Type_ : option string
}.
#[global] Instance eq_dec : EqDecision t.
Proof. solve_decision. Defined.
End Action.

Module Listener.
Record t : Type := mk {
  Certificates : slice (option Certificate.t);
  DefaultActions : slice (option Action.t);
  ListenerArn : option string;
  LoadBalancerArn : option string;
  Port : option Z;
  Protocol : option string;
  SslPolicy : option string
}.
#[global] Instance eq_dec : EqDecision t.
Proof. solve_decision. Defined.
End Listener.

Module CreateListenerInput.
Record t : Type := mk {
  Certificates : slice (option Certificate.t);
  DefaultActions : slice (option Action.t);
  LoadBalancerArn : option string;
  Port : option Z;
  Protocol : option string;
  SslPolicy : option string
}.
#[global] Instance eq_dec : EqDecision t.
Proof. solve_decision. Defined.
End CreateListenerInput.

Module CreateListenerOutput.
Record t : Type := mk {
  Listeners : slice (option Listener.t)
}.
End CreateListenerOutput.

Module ModifyListenerInput.
Record t : Type := mk {
  Certificates : slice (option Certificate.t);
  DefaultActions : slice (option Action.t);
  ListenerArn : option string;
  Port : option Z;
  Protocol : option string;
  SslPolicy : option string
}.
#[global] Instance eq_dec : EqDecision t.
Proof. solve_decision. Defined.
End ModifyListenerInput.

Module ModifyListenerOutput.
Record t : Type := mk {
  Listeners : slice (option Listener.t)
}.
End ModifyListenerOutput.

End elbv2.

(** ** Kubernetes API types *)

Module intstr.

Inductive Type_ : Type := Int | String.

#[global] Instance Type_eq_dec : EqDecision Type_.
Proof. solve_decision. Defined.

Record IntOrString : Type := mk {
  Type__ : Type_;
  IntVal : Z;
  StrVal : string
}.

#[global] Instance eq_dec : EqDecision IntOrString.
Proof. solve_decision. Defined.

Definition FromInt (val : Z) : IntOrString := mk Int val EmptyString.
Definition FromString (val : string) : IntOrString := mk String 0 val.

(** [strconv.Itoa] *)
Definition Itoa (i : Z) : string := pretty i.

(** [String()]: the string value, or the decimal form of the integer. *)
Definition String_ (i : IntOrString) : string :=
  match Type__ i with
  | String => StrVal i
  | Int => Itoa (IntVal i)
  end.

End intstr.

Module extensions.

Record IngressBackend : Type := mkBackend {
  ServiceName : string;
  ServicePort : intstr.IntOrString
}.

#[global] Instance IngressBackend_eq_dec : EqDecision IngressBackend.
Proof. solve_decision. Defined.

Definition IngressBackend_to_tuple (b : IngressBackend)
  : string * (bool * Z * string) :=
  (ServiceName b,
   (bool_decide (intstr.Type__ (ServicePort b) = intstr.String),
    intstr.IntVal (ServicePort b),
    intstr.StrVal (ServicePort b))).

Definition IngressBackend_of_tuple (t : string * (bool * Z * string))
  : IngressBackend :=
  let '(n, (s, i, v)) := t in
  mkBackend n (intstr.mk (if s then intstr.String else intstr.Int) i v).

#[global] Program Instance IngressBackend_countable : Countable IngressBackend :=
  inj_countable' IngressBackend_to_tuple IngressBackend_of_tuple _.
Next Obligation. by intros [n [[] i v]]. Qed.

(** Of the ingress the listener controller reads the default backend of
    its spec only; the ingress as a whole is handed on to the rules
    controller. *)
Record IngressSpec : Type := mkSpec {
  Backend : option IngressBackend
}.

Record Ingress : Type := mkIngress {
  Spec : IngressSpec
}.

End extensions.

(** ** Packages of the controller that the listener controller uses *)

Module action.

(** Modelled from the spec: the annotation store's custom-action lookup,
    [getCustomAction(backendName) -> RoutingAction | Error] (package
    annotations/action is not among the sources).  The configuration is
    represented by its lookup. *)
Record Config : Type := mkConfig {
  lookup : string -> option elbv2.Action.t * option error
}.

(** Modelled from the spec: [GetAction], the method of [*action.Config]
    the listener controller calls.  It reads the configuration its
    receiver points to, which is a nil dereference on a nil receiver. *)
Definition GetAction (c : option Config) (serviceName : string)
  : outcome (option elbv2.Action.t * option error) :=
  c ← deref c;
  mret (lookup c serviceName).

End action.

(** Of the packages below, which are not among the sources, the members
    that the listener controller reads. *)

Module listener.

Record Config : Type := mkConfig {
  SslPolicy : option string;
  CertificateArn : option string
}.

End listener.

Module annotations.

Record Ingress : Type := mkIngress {
  Action : option action.Config;
  Listener : option listener.Config
}.

End annotations.

Module loadbalancer.

Record PortData : Type := mkPortData {
  Port : Z;
  Scheme : string
}.

End loadbalancer.

Module tg.

Record TargetGroup : Type := mkTargetGroup {
  Arn : string
}.

Record TargetGroupGroup : Type := mkGroup {
  TGByBackend : gmap extensions.IngressBackend TargetGroup
}.

End tg.

Module aws.
(** [aws.String], [aws.Int64], [aws.Bool]: a pointer to the value. *)
Definition String_ (v : string) : option string := Some v.
Definition Int64 (v : Z) : option Z := Some v.
Definition Bool (v : bool) : option bool := Some v.
End aws.

(** ** util.DeepEqual *)

Module util.

(** The arguments of [DeepEqual] are of type [interface{}]: a value
    together with its dynamic type. *)
Inductive value : Type :=
| Int64Ptr (v : option Z)
| StringPtr (v : option string)
| CertificateSlice (v : slice (option elbv2.Certificate.t))
| ActionSlice (v : slice (option elbv2.Action.t)).

#[global] Instance value_eq_dec : EqDecision value.
Proof. solve_decision. Defined.

(** Modelled from the spec: [util.DeepEqual] (package pkg/util/types is
    not among the sources) is deep structural equality, order of the
    elements of a list included. *)
Definition DeepEqual (x y : value) : bool := bool_decide (x = y).

End util.

(** ** The listener controller *)

Record ReconcileOptions : Type := mkOptions {
  LBArn : string;
  Ingress : option extensions.Ingress;
  IngressAnnos : option annotations.Ingress;
  Port : loadbalancer.PortData;
  TGGroup : tg.TargetGroupGroup;
  (* If instance is specified, reconcile will operate on this instance,
     otherwise new listener instance will be created. *)
  Instance_ : option elbv2.Listener.t
}.

Module listenerConfig.
Record t : Type := mk {
  Port : option Z;
  Protocol : option string;
  SslPolicy : option string;
  Certificates : slice (option elbv2.Certificate.t);
  DefaultActions : slice (option elbv2.Action.t)
}.
#[global] Instance eq_dec : EqDecision t.
Proof. solve_decision. Defined.
End listenerConfig.

(** Calls the controller makes to other components, in the order made. *)
Inductive Call : Type :=
| DeepEqualCall (x y : util.value)
| CreateListenerCall (input : elbv2.CreateListenerInput.t)
| ModifyListenerCall (input : elbv2.ModifyListenerInput.t)
| RulesReconcileCall (instance : option elbv2.Listener.t)
    (ingress : option extensions.Ingress)
    (ingressAnnos : option annotations.Ingress)
    (tgGroup : tg.TargetGroupGroup).

(** ** Collaborators and the trace of calls *)

Module cloudapi.
(** [aws.CloudAPI], the two operations the listener controller uses.  An
    operation returns a response pointer and an error. *)
Record CloudAPI (W : Type) : Type := mk {
  CreateListenerWithContext :
    W -> elbv2.CreateListenerInput.t ->
    W * (option elbv2.CreateListenerOutput.t * option error);
  ModifyListenerWithContext :
    W -> elbv2.ModifyListenerInput.t ->
    W * (option elbv2.ModifyListenerOutput.t * option error)
}.
Arguments mk {W} _ _.
Arguments CreateListenerWithContext {W} _ _ _.
Arguments ModifyListenerWithContext {W} _ _ _.
End cloudapi.

Module rs.
(** [rs.Controller], the rules controller. *)
Record Controller (W : Type) : Type := mk {
  Reconcile :
    W -> option elbv2.Listener.t -> option extensions.Ingress ->
    option annotations.Ingress -> tg.TargetGroupGroup ->
    W * option error
}.
Arguments mk {W} _.
Arguments Reconcile {W} _ _ _ _ _ _.
End rs.

Record state (W : Type) : Type := mkState {
  world : W;
  calls : list Call
}.
Arguments mkState {W} _ _.
Arguments world {W} _.
Arguments calls {W} _.

Definition M (W : Type) (A : Type) : Type := state W -> state W * outcome A.

#[global] Instance M_ret {W} : MRet (M W) := fun _ a s => (s, Returns a).
#[global] Instance M_bind {W} : MBind (M W) := fun _ _ f m s =>
  match m s with
  | (s', Returns a) => f a s'
  | (s', Panics p) => (s', Panics p)
  end.

Definition lift {W A} (o : outcome A) : M W A := fun s => (s, o).

Definition record {W} (c : Call) (s : state W) : state W :=
  mkState (world s) (calls s ++ [c]).

(** The [ModifyListener] calls of a trace. *)
Definition modifyCalls (t : list Call) : list elbv2.ModifyListenerInput.t :=
  omap (fun c => match c with ModifyListenerCall i => Some i | _ => None end) t.

(** The [CreateListener] calls of a trace. *)
Definition createCalls (t : list Call) : list elbv2.CreateListenerInput.t :=
  omap (fun c => match c with CreateListenerCall i => Some i | _ => None end) t.

Record defaultController (W : Type) : Type := mkController {
  cloud : cloudapi.CloudAPI W;
  rulesController : rs.Controller W
}.
Arguments mkController {W} _ _.
Arguments cloud {W} _.
Arguments rulesController {W} _.

Section Controller.

Context {W : Type}.

(** [action.Use] and [action.Default404Backend] of package
    annotations/action, which is not among the sources: the port-name
    convention that asks for an action configured by annotation, and the
    built-in backend used when the ingress has no default backend. *)
Variable Use : string -> bool.
Variable Default404Backend : extensions.IngressBackend.

Variable controller : defaultController W.

Definition DeepEqual (x y : util.value) : M W bool := fun s =>
  (record (DeepEqualCall x y) s, Returns (util.DeepEqual x y)).

Definition CreateListenerWithContext (input : elbv2.CreateListenerInput.t)
  : M W (option elbv2.CreateListenerOutput.t * option error) := fun s =>
  let '(w, r) := cloudapi.CreateListenerWithContext (cloud controller) (world s) input in
  (mkState w (calls s ++ [CreateListenerCall input]), Returns r).

Definition ModifyListenerWithContext (input : elbv2.ModifyListenerInput.t)
  : M W (option elbv2.ModifyListenerOutput.t * option error) := fun s =>
  let '(w, r) := cloudapi.ModifyListenerWithContext (cloud controller) (world s) input in
  (mkState w (calls s ++ [ModifyListenerCall input]), Returns r).

Definition rulesReconcile (instance : option elbv2.Listener.t)
    (ingress : option extensions.Ingress)
    (ingressAnnos : option annotations.Ingress)
    (tgGroup : tg.TargetGroupGroup) : M W (option error) := fun s =>
  let '(w, r) := rs.Reconcile (rulesController controller) (world s)
                   instance ingress ingressAnnos tgGroup in
  (mkState w (calls s ++ [RulesReconcileCall instance ingress ingressAnnos tgGroup]),
   Returns r).

Definition buildDefaultActions (options : ReconcileOptions)
  : outcome (slice (option elbv2.Action.t) * option error) :=
  ingress ← deref (Ingress options);
  let defaultBackend := extensions.Backend (extensions.Spec ingress) in
  let defaultBackend :=
    match defaultBackend with
    | None => Default404Backend
    | Some b => b
    end in
  if Use (intstr.String_ (extensions.ServicePort defaultBackend)) then
    annos ← deref (IngressAnnos options);
    '(action, err) ←
      action.GetAction (annotations.Action annos)
        (extensions.ServiceName defaultBackend);
    match err with
    | Some err => mret (None, Some err)
    | None => mret (Some [action], None)
    end
  else
    match tg.TGByBackend (TGGroup options) !! defaultBackend with
    | None =>
        mret (None,
              Some ("unable to find targetGroup for backend "
                    +:+ extensions.ServiceName defaultBackend +:+ ":"
                    +:+ intstr.String_ (extensions.ServicePort defaultBackend)))
    | Some targetGroup =>
        let action :=
          Some {| elbv2.Action.AuthenticateCognitoConfig := None;
                  elbv2.Action.AuthenticateOidcConfig := None;
                  elbv2.Action.FixedResponseConfig := None;
                  elbv2.Action.Order := None;
                  elbv2.Action.RedirectConfig := None;
                  elbv2.Action.TargetGroupArn := aws.String_ (tg.Arn targetGroup);
                  elbv2.Action.Type_ := aws.String_ elbv2.ActionTypeEnumForward |} in
        mret (Some [action], None)
    end.

Definition buildListenerConfig (options : ReconcileOptions)
  : outcome (listenerConfig.t * option error) :=
  let config :=
    {| listenerConfig.Port := aws.Int64 (loadbalancer.Port (Port options));
       listenerConfig.Protocol := aws.String_ (loadbalancer.Scheme (Port options));
       listenerConfig.SslPolicy := None;
       listenerConfig.Certificates := None;
       listenerConfig.DefaultActions := None |} in
  config ←
    (if bool_decide (loadbalancer.Scheme (Port options) = elbv2.ProtocolEnumHttps) then
       annos ← deref (IngressAnnos options);
       l ← deref (annotations.Listener annos);
       let config :=
         match listener.CertificateArn l with
         | Some _ =>
             {| listenerConfig.Port := listenerConfig.Port config;
                listenerConfig.Protocol := listenerConfig.Protocol config;
                listenerConfig.SslPolicy := listenerConfig.SslPolicy config;
                listenerConfig.Certificates :=
                  Some [Some {| elbv2.Certificate.CertificateArn :=
                                  listener.CertificateArn l;
                                elbv2.Certificate.IsDefault := aws.Bool true |}];
                listenerConfig.DefaultActions := listenerConfig.DefaultActions config |}
         | None => config
         end in
       let config :=
         match listener.SslPolicy l with
         | Some _ =>
             {| listenerConfig.Port := listenerConfig.Port config;
                listenerConfig.Protocol := listenerConfig.Protocol config;
                listenerConfig.SslPolicy := listener.SslPolicy l;
                listenerConfig.Certificates := listenerConfig.Certificates config;
                listenerConfig.DefaultActions := listenerConfig.DefaultActions config |}
         | None => config
         end in
       mret config
     else mret config);
  '(actions, err) ← buildDefaultActions options;
  match err with
  | Some err => mret (config, Some err)
  | None =>
      mret ({| listenerConfig.Port := listenerConfig.Port config;
               listenerConfig.Protocol := listenerConfig.Protocol config;
               listenerConfig.SslPolicy := listenerConfig.SslPolicy config;
               listenerConfig.Certificates := listenerConfig.Certificates config;
               listenerConfig.DefaultActions := actions |}, None)
  end.

Definition newLSInstance (lbArn : string) (config : listenerConfig.t)
  : M W (option elbv2.Listener.t * option error) :=
  '(resp, err) ← CreateListenerWithContext
    {| elbv2.CreateListenerInput.LoadBalancerArn := aws.String_ lbArn;
       elbv2.CreateListenerInput.Port := listenerConfig.Port config;
       elbv2.CreateListenerInput.Protocol := listenerConfig.Protocol config;
       elbv2.CreateListenerInput.Certificates := listenerConfig.Certificates config;
       elbv2.CreateListenerInput.SslPolicy := listenerConfig.SslPolicy config;
       elbv2.CreateListenerInput.DefaultActions := listenerConfig.DefaultActions config |};
  match err with
  | Some err => mret (None, Some err)
  | None =>
      resp ← lift (deref resp);
      l ← lift (index0 (elbv2.CreateListenerOutput.Listeners resp));
      mret (l, None)
  end.

Definition LSInstanceNeedsModification (instance : option elbv2.Listener.t)
    (config : listenerConfig.t) : M W bool :=
  let needModification := false in
  i ← lift (deref instance);
  eq ← DeepEqual (util.Int64Ptr (elbv2.Listener.Port i))
                 (util.Int64Ptr (listenerConfig.Port config));
  let needModification := if negb eq then true else needModification in
  eq ← DeepEqual (util.StringPtr (elbv2.Listener.Protocol i))
                 (util.StringPtr (listenerConfig.Protocol config));
  let needModification := if negb eq then true else needModification in
  eq ← DeepEqual (util.CertificateSlice (elbv2.Listener.Certificates i))
                 (util.CertificateSlice (listenerConfig.Certificates config));
  let needModification := if negb eq then true else needModification in
  eq ← DeepEqual (util.StringPtr (elbv2.Listener.SslPolicy i))
                 (util.StringPtr (listenerConfig.SslPolicy config));
  let needModification := if negb eq then true else needModification in
  eq ← DeepEqual (util.ActionSlice (elbv2.Listener.DefaultActions i))
                 (util.ActionSlice (listenerConfig.DefaultActions config));
  let needModification := if negb eq then true else needModification in
  mret needModification.

Definition reconcileLSInstance (instance : option elbv2.Listener.t)
    (config : listenerConfig.t)
  : M W (option elbv2.Listener.t * option error) :=
  need ← LSInstanceNeedsModification instance config;
  if need : bool then
    i ← lift (deref instance);
    '(output, err) ← ModifyListenerWithContext
      {| elbv2.ModifyListenerInput.ListenerArn := elbv2.Listener.ListenerArn i;
         elbv2.ModifyListenerInput.Port := listenerConfig.Port config;
         elbv2.ModifyListenerInput.Protocol := listenerConfig.Protocol config;
         elbv2.ModifyListenerInput.Certificates := listenerConfig.Certificates config;
         elbv2.ModifyListenerInput.SslPolicy := listenerConfig.SslPolicy config;
         elbv2.ModifyListenerInput.DefaultActions := listenerConfig.DefaultActions config |};
    match err with
    | Some err => mret (instance, Some err)
    | None =>
        output ← lift (deref output);
        l ← lift (index0 (elbv2.ModifyListenerOutput.Listeners output));
        mret (l, None)
    end
  else mret (instance, None).

Definition Reconcile (options : ReconcileOptions) : M W (option error) :=
  '(config, err) ← lift (buildListenerConfig options);
  match err with
  | Some err => mret (Some ("failed to build listener config due to " +:+ err))
  | None =>
      let instance := Instance_ options in
      '(instance, err) ←
        match instance with
        | None =>
            '(instance, err) ← newLSInstance (LBArn options) config;
            match err with
            | Some err => mret (instance, Some ("failed to create listener due to " +:+ err))
            | None => mret (instance, None)
            end
        | Some _ =>
            '(instance, err) ← reconcileLSInstance instance config;
            match err with
            | Some err => mret (instance, Some ("failed to reconcile listener due to " +:+ err))
            | None => mret (instance, None)
            end
        end;
      match err with
      | Some err => mret (Some err)
      | None =>
          err ← rulesReconcile instance (Ingress options) (IngressAnnos options)
                               (TGGroup options);
          match err with
          | Some err => mret (Some ("failed to reconcile rules due to " +:+ err))
          | None => mret None
          end
      end
  end.

End Controller.

Arguments DeepEqual {W} x y.
Arguments LSInstanceNeedsModification {W} instance config.

(** ** The requests the specification's properties speak of *)

(** The input of the create call for a configuration. *)
Definition createInput (lbArn : string) (config : listenerConfig.t)
  : elbv2.CreateListenerInput.t :=
  {| elbv2.CreateListenerInput.LoadBalancerArn := Some lbArn;
     elbv2.CreateListenerInput.Port := listenerConfig.Port config;
     elbv2.CreateListenerInput.Protocol := listenerConfig.Protocol config;
     elbv2.CreateListenerInput.Certificates := listenerConfig.Certificates config;
     elbv2.CreateListenerInput.SslPolicy := listenerConfig.SslPolicy config;
     elbv2.CreateListenerInput.DefaultActions := listenerConfig.DefaultActions config |}.

(** The input of the update call for a listener and a configuration: the
    listener's identifier and all five fields of the configuration. *)
Definition modifyInput (instance : elbv2.Listener.t) (config : listenerConfig.t)
  : elbv2.ModifyListenerInput.t :=
  {| elbv2.ModifyListenerInput.ListenerArn := elbv2.Listener.ListenerArn instance;
     elbv2.ModifyListenerInput.Port := listenerConfig.Port config;
     elbv2.ModifyListenerInput.Protocol := listenerConfig.Protocol config;
     elbv2.ModifyListenerInput.Certificates := listenerConfig.Certificates config;
     elbv2.ModifyListenerInput.SslPolicy := listenerConfig.SslPolicy config;
     elbv2.ModifyListenerInput.DefaultActions := listenerConfig.DefaultActions config |}.

(** What follows a [ModifyListener] call that answered [r]. *)
Definition afterModify (instance : elbv2.Listener.t)
    (r : option elbv2.ModifyListenerOutput.t * option error)
  : outcome (option elbv2.Listener.t * option error) :=
  match r with
  | (_, Some err) => Returns (Some instance, Some err)
  | (output, None) =>
      output ← deref output;
      l ← index0 (elbv2.ModifyListenerOutput.Listeners output);
      mret (l, None)
  end.

(** What follows a [CreateListener] call that answered [r]. *)
Definition afterCreate
    (r : option elbv2.CreateListenerOutput.t * option error)
  : outcome (option elbv2.Listener.t * option error) :=
  match r with
  | (_, Some err) => Returns (None, Some err)
  | (resp, None) =>
      resp ← deref resp;
      l ← index0 (elbv2.CreateListenerOutput.Listeners resp);
      mret (l, None)
  end.

(** The action that forwards to the target group [arn]. *)
Definition forwardTo (arn : string) : elbv2.Action.t :=
  {| elbv2.Action.AuthenticateCognitoConfig := None;
     elbv2.Action.AuthenticateOidcConfig := None;
     elbv2.Action.FixedResponseConfig := None;
     elbv2.Action.Order := None;
     elbv2.Action.RedirectConfig := None;
     elbv2.Action.TargetGroupArn := Some arn;
     elbv2.Action.Type_ := Some elbv2.ActionTypeEnumForward |}.

(** The default backend the actions are resolved for: the ingress's, or
    the built-in one when the ingress has none. *)
Definition effectiveBackend (Default404Backend : extensions.IngressBackend)
    (ingress : extensions.Ingress) : extensions.IngressBackend :=
  default Default404Backend (extensions.Backend (extensions.Spec ingress)).

(** The five comparisons of the drift check, in the order made. *)
Definition fieldChecks (instance : elbv2.Listener.t) (config : listenerConfig.t)
  : list Call :=
  [ DeepEqualCall (util.Int64Ptr (elbv2.Listener.Port instance))
                  (util.Int64Ptr (listenerConfig.Port config));
    DeepEqualCall (util.StringPtr (elbv2.Listener.Protocol instance))
                  (util.StringPtr (listenerConfig.Protocol config));
    DeepEqualCall (util.CertificateSlice (elbv2.Listener.Certificates instance))
                  (util.CertificateSlice (listenerConfig.Certificates config));
    DeepEqualCall (util.StringPtr (elbv2.Listener.SslPolicy instance))
                  (util.StringPtr (listenerConfig.SslPolicy config));
    DeepEqualCall (util.ActionSlice (elbv2.Listener.DefaultActions instance))
                  (util.ActionSlice (listenerConfig.DefaultActions config)) ].

(** At least one of the five fields of the listener differs from the
    configuration. *)
Definition drift (instance : elbv2.Listener.t) (config : listenerConfig.t) : Prop :=
  elbv2.Listener.Port instance ≠ listenerConfig.Port config
  ∨ elbv2.Listener.Protocol instance ≠ listenerConfig.Protocol config
  ∨ elbv2.Listener.Certificates instance ≠ listenerConfig.Certificates config
  ∨ elbv2.Listener.SslPolicy instance ≠ listenerConfig.SslPolicy config
  ∨ elbv2.Listener.DefaultActions instance ≠ listenerConfig.DefaultActions config.

#[global] Instance drift_dec instance config : Decision (drift instance config).
Proof. unfold drift. apply _. Defined.


(** The calls of a trace to the rules controller, by the listener they
    are made for. *)
Definition rulesCalls (t : list Call) : list (option elbv2.Listener.t) :=
  omap (fun c => match c with RulesReconcileCall l _ _ _ => Some l | _ => None end) t.

(** The request with its listener replaced. *)
Definition withInstance (options : ReconcileOptions)
    (instance : option elbv2.Listener.t) : ReconcileOptions :=
  {| LBArn := LBArn options;
     Ingress := Ingress options;
     IngressAnnos := IngressAnnos options;
     Port := Port options;
     TGGroup := TGGroup options;
     Instance_ := instance |}.

(** The request with its target groups replaced. *)
Definition withTGGroup (options : ReconcileOptions)
    (tgGroup : tg.TargetGroupGroup) : ReconcileOptions :=
  {| LBArn := LBArn options;
     Ingress := Ingress options;
     IngressAnnos := IngressAnnos options;
     Port := Port options;
     TGGroup := tgGroup;
     Instance_ := Instance_ options |}.

(** The request with its annotations replaced. *)
Definition withIngressAnnos (options : ReconcileOptions)
    (ingressAnnos : option annotations.Ingress) : ReconcileOptions :=
  {| LBArn := LBArn options;
     Ingress := Ingress options;
     IngressAnnos := ingressAnnos;
     Port := Port options;
     TGGroup := TGGroup options;
     Instance_ := Instance_ options |}.

(** The five fields of a listener are those of a configuration. *)
Definition matches (instance : elbv2.Listener.t) (config : listenerConfig.t) : Prop :=
  elbv2.Listener.Port instance = listenerConfig.Port config
  ∧ elbv2.Listener.Protocol instance = listenerConfig.Protocol config
  ∧ elbv2.Listener.Certificates instance = listenerConfig.Certificates config
  ∧ elbv2.Listener.SslPolicy instance = listenerConfig.SslPolicy config
  ∧ elbv2.Listener.DefaultActions instance = listenerConfig.DefaultActions config.

(** The first listener of a response is missing: there is no response,
    or its list of listeners is nil or empty. *)
Definition noListener (listeners : option (slice (option elbv2.Listener.t))) : Prop :=
  listeners = None ∨ listeners = Some None ∨ listeners = Some (Some []).

(** The panic of reading the first listener of such a response. *)
Definition noListenerPanic (listeners : option (slice (option elbv2.Listener.t)))
  : panic :=
  match listeners with
  | None => NilDereference
  | Some _ => IndexOutOfRange
  end.

(** ** Scenarios

    A concrete cloud, rules controller and annotation package, and the
    requests of the specification's scenarios, on which the properties
    below are exercised. *)

Module Scenario.

(** Modelled from the spec: the reserved port name that asks for a custom
    action, and the built-in fallback backend ("no route configured",
    answered by a fixed 404 response); package annotations/action is not
    among the sources, the names are the scenario's. *)
Definition UseActionAnnotation : string := "use-annotation".
Definition default404ServiceName : string := "Default 404".

Definition Use (s : string) : bool := bool_decide (s = UseActionAnnotation).

Definition Default404Backend : extensions.IngressBackend :=
  {| extensions.ServiceName := default404ServiceName;
     extensions.ServicePort := intstr.FromString UseActionAnnotation |}.

Definition default404Action : elbv2.Action.t :=
  {| elbv2.Action.AuthenticateCognitoConfig := None;
     elbv2.Action.AuthenticateOidcConfig := None;
     elbv2.Action.FixedResponseConfig :=
       Some {| elbv2.FixedResponseActionConfig.ContentType := Some "text/plain";
               elbv2.FixedResponseActionConfig.MessageBody := None;
               elbv2.FixedResponseActionConfig.StatusCode := Some "404" |};
     elbv2.Action.Order := None;
     elbv2.Action.RedirectConfig := None;
     elbv2.Action.TargetGroupArn := None;
     elbv2.Action.Type_ := Some "fixed-response" |}.

(** The custom actions of the annotations, by backend name. *)
Definition actionConfig (actions : gmap string elbv2.Action.t) : action.Config :=
  action.mkConfig (fun serviceName =>
    if bool_decide (serviceName = default404ServiceName)
    then (Some default404Action, None)
    else match actions !! serviceName with
         | Some a => (Some a, None)
         | None => (None, Some ("no action annotation for " +:+ serviceName))
         end).

(** The world of the scenario cloud: the listeners, as last written. *)
Definition World : Type := list elbv2.Listener.t.

Definition createListener (w : World) (input : elbv2.CreateListenerInput.t)
  : World * (option elbv2.CreateListenerOutput.t * option error) :=
  let l :=
    {| elbv2.Listener.Certificates := elbv2.CreateListenerInput.Certificates input;
       elbv2.Listener.DefaultActions := elbv2.CreateListenerInput.DefaultActions input;
       elbv2.Listener.ListenerArn := Some ("listener-" +:+ pretty (S (List.length w)));
       elbv2.Listener.LoadBalancerArn := elbv2.CreateListenerInput.LoadBalancerArn input;
       elbv2.Listener.Port := elbv2.CreateListenerInput.Port input;
       elbv2.Listener.Protocol := elbv2.CreateListenerInput.Protocol input;
       elbv2.Listener.SslPolicy := elbv2.CreateListenerInput.SslPolicy input |} in
  (w ++ [l], (Some (elbv2.CreateListenerOutput.mk (Some [Some l])), None)).

Definition modifyListener (w : World) (input : elbv2.ModifyListenerInput.t)
  : World * (option elbv2.ModifyListenerOutput.t * option error) :=
  let l :=
    {| elbv2.Listener.Certificates := elbv2.ModifyListenerInput.Certificates input;
       elbv2.Listener.DefaultActions := elbv2.ModifyListenerInput.DefaultActions input;
       elbv2.Listener.ListenerArn := elbv2.ModifyListenerInput.ListenerArn input;
       elbv2.Listener.LoadBalancerArn := Some "lb-1";
       elbv2.Listener.Port := elbv2.ModifyListenerInput.Port input;
       elbv2.Listener.Protocol := elbv2.ModifyListenerInput.Protocol input;
       elbv2.Listener.SslPolicy := elbv2.ModifyListenerInput.SslPolicy input |} in
  (w ++ [l], (Some (elbv2.ModifyListenerOutput.mk (Some [Some l])), None)).

(** A rules controller that answers with the given error. *)
Definition rules (answer : option error) : rs.Controller World :=
  rs.mk (fun w _ _ _ _ => (w, answer)).

Definition controller (answer : option error) : defaultController World :=
  mkController (cloudapi.mk createListener modifyListener) (rules answer).

Definition svcA : extensions.IngressBackend :=
  {| extensions.ServiceName := "svcA";
     extensions.ServicePort := intstr.FromInt 8080 |}.

Definition annos (cert policy : option string) : annotations.Ingress :=
  {| annotations.Action := Some (actionConfig ∅);
     annotations.Listener := Some (listener.mkConfig policy cert) |}.

Definition request (scheme : string) (port : Z)
    (backend : option extensions.IngressBackend)
    (cert policy : option string)
    (groups : gmap extensions.IngressBackend tg.TargetGroup)
    (instance : option elbv2.Listener.t) : ReconcileOptions :=
  {| LBArn := "lb-1";
     Ingress := Some (extensions.mkIngress (extensions.mkSpec backend));
     IngressAnnos := Some (annos cert policy);
     Port := loadbalancer.mkPortData port scheme;
     TGGroup := tg.mkGroup groups;
     Instance_ := instance |}.

Definition groupsA : gmap extensions.IngressBackend tg.TargetGroup :=
  {[ svcA := tg.mkTargetGroup "tg-1" ]}.

(** The listener on port [port] that forwards to "tg-1". *)
Definition listenerA (port : Z) : elbv2.Listener.t :=
  {| elbv2.Listener.Certificates := None;
     elbv2.Listener.DefaultActions := Some [Some (forwardTo "tg-1")];
     elbv2.Listener.ListenerArn := Some "listener-0";
     elbv2.Listener.LoadBalancerArn := Some "lb-1";
     elbv2.Listener.Port := Some port;
     elbv2.Listener.Protocol := Some "HTTP";
     elbv2.Listener.SslPolicy := None |}.

(** Scenario A: HTTP on port 80, backend svcA:8080, no listener yet. *)
Definition requestA : ReconcileOptions :=
  request "HTTP" 80 (Some svcA) None None groupsA None.

(** Scenario B: as A, with HTTPS and a certificate annotation. *)
Definition requestB : ReconcileOptions :=
  request "HTTPS" 443 (Some svcA) (Some "cert-1") None groupsA None.

(** Scenario C: as A, with a listener that equals the target. *)
Definition requestC : ReconcileOptions :=
  request "HTTP" 80 (Some svcA) None None groupsA (Some (listenerA 80)).

(** Scenario D: as A, with a listener on port 8080. *)
Definition requestD : ReconcileOptions :=
  request "HTTP" 80 (Some svcA) None None groupsA (Some (listenerA 8080)).

(** A request whose backend has no target group. *)
Definition requestUnresolved : ReconcileOptions :=
  request "HTTP" 80 (Some svcA) None None ∅ None.

(** A request without default backend. *)
Definition requestNoBackend : ReconcileOptions :=
  request "HTTP" 80 None None None groupsA None.

Definition configA : listenerConfig.t :=
  {| listenerConfig.Port := Some 80;
     listenerConfig.Protocol := Some "HTTP";
     listenerConfig.SslPolicy := None;
     listenerConfig.Certificates := None;
     listenerConfig.DefaultActions := Some [Some (forwardTo "tg-1")] |}.

Definition configB : listenerConfig.t :=
  {| listenerConfig.Port := Some 443;
     listenerConfig.Protocol := Some "HTTPS";
     listenerConfig.SslPolicy := None;
     listenerConfig.Certificates :=
       Some [Some {| elbv2.Certificate.CertificateArn := Some "cert-1";
                     elbv2.Certificate.IsDefault := Some true |}];
     listenerConfig.DefaultActions := Some [Some (forwardTo "tg-1")] |}.

(** The listener the scenario cloud creates for scenario A. *)
Definition createdA : elbv2.Listener.t :=
  {| elbv2.Listener.Certificates := None;
     elbv2.Listener.DefaultActions := Some [Some (forwardTo "tg-1")];
     elbv2.Listener.ListenerArn := Some "listener-1";
     elbv2.Listener.LoadBalancerArn := Some "lb-1";
     elbv2.Listener.Port := Some 80;
     elbv2.Listener.Protocol := Some "HTTP";
     elbv2.Listener.SslPolicy := None |}.

(** A cloud whose calls fail with the given error. *)
Definition failingController (e : error) : defaultController World :=
  mkController
    (cloudapi.mk (fun w _ => (w, (None, Some e))) (fun w _ => (w, (None, Some e))))
    (rules None).

(** A cloud that answers without error and without listener. *)
Definition emptyController : defaultController World :=
  mkController
    (cloudapi.mk
       (fun w _ => (w, (Some (elbv2.CreateListenerOutput.mk (Some [])), None)))
       (fun w _ => (w, (Some (elbv2.ModifyListenerOutput.mk (Some [])), None))))
    (rules None).

(** A backend that asks for the custom action "ssl-redirect". *)
Definition customBackend : extensions.IngressBackend :=
  {| extensions.ServiceName := "ssl-redirect";
     extensions.ServicePort := intstr.FromString UseActionAnnotation |}.

(** A request for that custom action, which the annotations do not have;
    the backend has a target group all the same. *)
Definition requestCustom : ReconcileOptions :=
  request "HTTP" 80 (Some customBackend) None None
    {[ customBackend := tg.mkTargetGroup "tg-2" ]} None.

(** Scenario A without annotations, over HTTP and over HTTPS. *)
Definition requestNoAnnos : ReconcileOptions :=
  withIngressAnnos requestA None.

Definition requestNoAnnosHttps : ReconcileOptions :=
  withIngressAnnos requestB None.

(** The custom-action request with annotations whose action part is nil,
    and scenario B with annotations whose listener part is nil. *)
Definition requestNilAction : ReconcileOptions :=
  withIngressAnnos requestCustom
    (Some {| annotations.Action := None;
             annotations.Listener := Some (listener.mkConfig None None) |}).

Definition requestNilListener : ReconcileOptions :=
  withIngressAnnos requestB
    (Some {| annotations.Action := Some (actionConfig ∅);
             annotations.Listener := None |}).

Definition start : state World := mkState [] [].

End Scenario.

(** * Properties *)

(** ** The scenarios of the specification *)

(** Scenario A: the configuration, and the one create call. *)
Example scenarioA_config :
  buildListenerConfig Scenario.Use Scenario.Default404Backend Scenario.requestA
  = Returns (Scenario.configA, None).
Proof. vm_compute. reflexivity. Qed.

Example scenarioA_create :
  createCalls (calls (Reconcile Scenario.Use Scenario.Default404Backend
                        (Scenario.controller None) Scenario.requestA Scenario.start).1)
  = [createInput "lb-1" Scenario.configA].
Proof. vm_compute. reflexivity. Qed.

(** Scenario B: the certificate of the annotation, marked default. *)
Example scenarioB_config :
  buildListenerConfig Scenario.Use Scenario.Default404Backend Scenario.requestB
  = Returns (Scenario.configB, None).
Proof. vm_compute. reflexivity. Qed.

(** Scenario C: no drift, no update call. *)
Example scenarioC_no_update :
  LSInstanceNeedsModification (Some (Scenario.listenerA 80)) Scenario.configA
    Scenario.start
  = (mkState [] (fieldChecks (Scenario.listenerA 80) Scenario.configA), Returns false)
  ∧ modifyCalls (calls (Reconcile Scenario.Use Scenario.Default404Backend
                          (Scenario.controller None) Scenario.requestC Scenario.start).1)
    = [].
Proof. split; vm_compute; reflexivity. Qed.

(** Scenario D: the port differs, one update call with port 80. *)
Example scenarioD_update :
  LSInstanceNeedsModification (Some (Scenario.listenerA 8080)) Scenario.configA
    Scenario.start
  = (mkState [] (fieldChecks (Scenario.listenerA 8080) Scenario.configA), Returns true)
  ∧ modifyCalls (calls (Reconcile Scenario.Use Scenario.Default404Backend
                          (Scenario.controller None) Scenario.requestD Scenario.start).1)
    = [modifyInput (Scenario.listenerA 8080) Scenario.configA].
Proof. split; vm_compute; reflexivity. Qed.

(** An ingress without default backend gets the fallback's action. *)
Example scenario_noBackend :
  buildDefaultActions Scenario.Use Scenario.Default404Backend Scenario.requestNoBackend
  = Returns (Some [Some Scenario.default404Action], None).
Proof. vm_compute. reflexivity. Qed.

(** A nil slice and an empty slice are not deeply equal. *)
Example DeepEqual_nil_empty :
  util.DeepEqual (util.CertificateSlice None) (util.CertificateSlice (Some [])) = false.
Proof. reflexivity. Qed.

(** ** The drift check *)

Lemma DeepEqual_Int64Ptr x y :
  util.DeepEqual (util.Int64Ptr x) (util.Int64Ptr y) = bool_decide (x = y).
Proof. unfold util.DeepEqual. apply bool_decide_ext. split; congruence. Qed.

Lemma DeepEqual_StringPtr x y :
  util.DeepEqual (util.StringPtr x) (util.StringPtr y) = bool_decide (x = y).
Proof. unfold util.DeepEqual. apply bool_decide_ext. split; congruence. Qed.

Lemma DeepEqual_CertificateSlice x y :
  util.DeepEqual (util.CertificateSlice x) (util.CertificateSlice y) = bool_decide (x = y).
Proof. unfold util.DeepEqual. apply bool_decide_ext. split; congruence. Qed.

Lemma DeepEqual_ActionSlice x y :
  util.DeepEqual (util.ActionSlice x) (util.ActionSlice y) = bool_decide (x = y).
Proof. unfold util.DeepEqual. apply bool_decide_ext. split; congruence. Qed.

Section DriftCheck.

Context {W : Type}.

(** The drift check on a listener that is there: it makes the five
    comparisons, touches nothing else, and answers whether a field
    differs. *)
Lemma LSInstanceNeedsModification_run instance config (s : state W) :
  LSInstanceNeedsModification (Some instance) config s
  = (mkState (world s) (calls s ++ fieldChecks instance config),
     Returns (bool_decide (drift instance config))).
Proof.
  unfold LSInstanceNeedsModification, DeepEqual, fieldChecks, record, lift, mbind, M_bind, mret, M_ret.
  simpl. rewrite <- !app_assoc. simpl. f_equal. f_equal.
  rewrite DeepEqual_Int64Ptr, !DeepEqual_StringPtr,
    DeepEqual_CertificateSlice, DeepEqual_ActionSlice.
  unfold drift.
  repeat case_bool_decide; simpl; first [reflexivity | tauto].
Qed.

End DriftCheck.

(** C3. For every observed listener and every built configuration,
    [LSInstanceNeedsModification] answers true exactly when one of the five
    fields (port, protocol, certificates, SSL policy, default actions) is
    not deeply equal between the two; whatever the fields are, all five
    comparisons are made, in that order, and nothing else is called. *)
Theorem LSInstanceNeedsModification_iff_drift {W : Type}
    (instance : elbv2.Listener.t) (config : listenerConfig.t) (s : state W) :
  ∃ need : bool,
    LSInstanceNeedsModification (Some instance) config s
    = (mkState (world s)
         (calls s
          ++ [ DeepEqualCall (util.Int64Ptr (elbv2.Listener.Port instance))
                             (util.Int64Ptr (listenerConfig.Port config));
               DeepEqualCall (util.StringPtr (elbv2.Listener.Protocol instance))
                             (util.StringPtr (listenerConfig.Protocol config));
               DeepEqualCall (util.CertificateSlice (elbv2.Listener.Certificates instance))
                             (util.CertificateSlice (listenerConfig.Certificates config));
               DeepEqualCall (util.StringPtr (elbv2.Listener.SslPolicy instance))
                             (util.StringPtr (listenerConfig.SslPolicy config));
               DeepEqualCall (util.ActionSlice (elbv2.Listener.DefaultActions instance))
                             (util.ActionSlice (listenerConfig.DefaultActions config)) ]),
       Returns need)
    ∧ (need = true ↔
         elbv2.Listener.Port instance ≠ listenerConfig.Port config
         ∨ elbv2.Listener.Protocol instance ≠ listenerConfig.Protocol config
         ∨ elbv2.Listener.Certificates instance ≠ listenerConfig.Certificates config
         ∨ elbv2.Listener.SslPolicy instance ≠ listenerConfig.SslPolicy config
         ∨ elbv2.Listener.DefaultActions instance ≠ listenerConfig.DefaultActions config).
Proof.
  exists (bool_decide (drift instance config)). split.
  - apply LSInstanceNeedsModification_run.
  - rewrite bool_decide_eq_true. reflexivity.
Qed.

(** ** The listener stage *)

Section ListenerStage.

Context {W : Type} (controller : defaultController W).

Lemma newLSInstance_run lbArn config (s : state W) :
  newLSInstance controller lbArn config s
  = let '(w, r) := cloudapi.CreateListenerWithContext (cloud controller)
                     (world s) (createInput lbArn config) in
    (mkState w (calls s ++ [CreateListenerCall (createInput lbArn config)]),
     afterCreate r).
Proof.
  unfold newLSInstance, CreateListenerWithContext, mbind, M_bind, createInput, aws.String_.
  destruct (cloudapi.CreateListenerWithContext _ _ _) as [w [resp [err|]]]; simpl;
    [reflexivity|].
  destruct resp as [[[[|l ?]|]]|]; reflexivity.
Qed.

Lemma reconcileLSInstance_no_drift instance config (s : state W) :
  ¬ drift instance config →
  reconcileLSInstance controller (Some instance) config s
  = (mkState (world s) (calls s ++ fieldChecks instance config),
     Returns (Some instance, None)).
Proof.
  intros Hd. unfold reconcileLSInstance, mbind, M_bind.
  rewrite LSInstanceNeedsModification_run, bool_decide_eq_false_2 by done.
  reflexivity.
Qed.

Lemma reconcileLSInstance_drift instance config (s : state W) :
  drift instance config →
  reconcileLSInstance controller (Some instance) config s
  = let '(w, r) := cloudapi.ModifyListenerWithContext (cloud controller)
                     (world s) (modifyInput instance config) in
    (mkState w (calls s ++ fieldChecks instance config
                ++ [ModifyListenerCall (modifyInput instance config)]),
     afterModify instance r).
Proof.
  intros Hd. unfold reconcileLSInstance, mbind, M_bind.
  rewrite LSInstanceNeedsModification_run, bool_decide_eq_true_2 by done.
  unfold ModifyListenerWithContext, lift, modifyInput. cbn [deref world calls].
  destruct (cloudapi.ModifyListenerWithContext _ _ _) as [w [output [err|]]];
    rewrite <- app_assoc; simpl; [reflexivity|].
  destruct output as [[[[|l ?]|]]|]; reflexivity.
Qed.

End ListenerStage.

(** ** Reconciliation of an existing listener *)

Lemma modifyCalls_app t1 t2 :
  modifyCalls (t1 ++ t2) = modifyCalls t1 ++ modifyCalls t2.
Proof. apply omap_app. Qed.

Lemma modifyCalls_fieldChecks instance config :
  modifyCalls (fieldChecks instance config) = [].
Proof. reflexivity. Qed.

Section ExistingListener.

Context {W : Type}.
Variable Use : string -> bool.
Variable Default404Backend : extensions.IngressBackend.
Variable controller : defaultController W.

(** Reconciliation of a request with a listener, once the configuration
    is built: the listener stage, then the rules controller. *)
Lemma Reconcile_existing options instance config (s : state W) :
  Instance_ options = Some instance →
  buildListenerConfig Use Default404Backend options = Returns (config, None) →
  Reconcile Use Default404Backend controller options s
  = match reconcileLSInstance controller (Some instance) config s with
    | (s1, Returns (l, None)) =>
        let '(w, err) := rs.Reconcile (rulesController controller) (world s1) l
                           (Ingress options) (IngressAnnos options) (TGGroup options) in
        (mkState w (calls s1 ++ [RulesReconcileCall l (Ingress options)
                                   (IngressAnnos options) (TGGroup options)]),
         Returns (match err with
                  | Some err => Some ("failed to reconcile rules due to " +:+ err)
                  | None => None
                  end))
    | (s1, Returns (_, Some err)) =>
        (s1, Returns (Some ("failed to reconcile listener due to " +:+ err)))
    | (s1, Panics p) => (s1, Panics p)
    end.
Proof.
  intros Hi Hb. unfold Reconcile, lift, mbind at 1, M_bind at 1.
  rewrite Hb, Hi. cbn beta iota. unfold mbind, M_bind.
  destruct (reconcileLSInstance _ _ _ _) as [s1 [[l [err|]]|p]]; cbn; try reflexivity.
  unfold rulesReconcile.
  destruct (rs.Reconcile _ _ _ _ _ _) as [w [err|]]; reflexivity.
Qed.

(** C1. When the request carries a listener whose port, protocol,
    certificates, SSL policy and default actions equal those of the
    configuration built from the request, the update stage returns that
    listener as it is, and [Reconcile] makes no [ModifyListener] call: it
    makes the five comparisons and then hands the listener to the rules
    controller. *)
Theorem Reconcile_no_drift_no_update options instance config (s : state W) :
  Instance_ options = Some instance →
  buildListenerConfig Use Default404Backend options = Returns (config, None) →
  elbv2.Listener.Port instance = listenerConfig.Port config →
  elbv2.Listener.Protocol instance = listenerConfig.Protocol config →
  elbv2.Listener.Certificates instance = listenerConfig.Certificates config →
  elbv2.Listener.SslPolicy instance = listenerConfig.SslPolicy config →
  elbv2.Listener.DefaultActions instance = listenerConfig.DefaultActions config →
  reconcileLSInstance controller (Some instance) config s
  = (mkState (world s) (calls s ++ fieldChecks instance config),
     Returns (Some instance, None))
  ∧ modifyCalls (calls (Reconcile Use Default404Backend controller options s).1)
    = modifyCalls (calls s)
  ∧ ∃ w err,
      Reconcile Use Default404Backend controller options s
      = (mkState w (calls s ++ fieldChecks instance config
                    ++ [RulesReconcileCall (Some instance) (Ingress options)
                          (IngressAnnos options) (TGGroup options)]),
         Returns err).
Proof.
  intros Hi Hb H1 H2 H3 H4 H5.
  assert (Hd : ¬ drift instance config) by (unfold drift; tauto).
  pose proof (reconcileLSInstance_no_drift controller instance config s Hd) as Hr.
  split; [exact Hr|].
  rewrite (Reconcile_existing _ _ _ _ Hi Hb), Hr. cbn [world calls].
  destruct (rs.Reconcile _ _ _ _ _ _) as [w err]. cbn [fst calls]. split.
  - rewrite !modifyCalls_app, modifyCalls_fieldChecks. cbn. by rewrite !app_nil_r.
  - exists w. eexists. rewrite <- app_assoc. reflexivity.
Qed.

(** C2. When the request carries a listener of which at least one of
    port, protocol, certificates, SSL policy and default actions differs
    from the configuration built from the request, [Reconcile] makes
    exactly one [ModifyListener] call, for that listener's identifier and
    with all five fields of the configuration.  The call is the cloud's
    operation, applied to the world as [Reconcile] found it: the update
    stage returns what the cloud answered and leaves the world as the
    cloud left it, and [Reconcile] goes on from there. *)
Theorem Reconcile_drift_one_update options instance config (s : state W) :
  Instance_ options = Some instance →
  buildListenerConfig Use Default404Backend options = Returns (config, None) →
  elbv2.Listener.Port instance ≠ listenerConfig.Port config
  ∨ elbv2.Listener.Protocol instance ≠ listenerConfig.Protocol config
  ∨ elbv2.Listener.Certificates instance ≠ listenerConfig.Certificates config
  ∨ elbv2.Listener.SslPolicy instance ≠ listenerConfig.SslPolicy config
  ∨ elbv2.Listener.DefaultActions instance ≠ listenerConfig.DefaultActions config →
  modifyCalls (calls (Reconcile Use Default404Backend controller options s).1)
  = modifyCalls (calls s)
    ++ [ {| elbv2.ModifyListenerInput.ListenerArn := elbv2.Listener.ListenerArn instance;
            elbv2.ModifyListenerInput.Port := listenerConfig.Port config;
            elbv2.ModifyListenerInput.Protocol := listenerConfig.Protocol config;
            elbv2.ModifyListenerInput.Certificates := listenerConfig.Certificates config;
            elbv2.ModifyListenerInput.SslPolicy := listenerConfig.SslPolicy config;
            elbv2.ModifyListenerInput.DefaultActions :=
              listenerConfig.DefaultActions config |} ]
  ∧ ∃ w r,
      cloudapi.ModifyListenerWithContext (cloud controller) (world s)
        {| elbv2.ModifyListenerInput.ListenerArn := elbv2.Listener.ListenerArn instance;
           elbv2.ModifyListenerInput.Port := listenerConfig.Port config;
           elbv2.ModifyListenerInput.Protocol := listenerConfig.Protocol config;
           elbv2.ModifyListenerInput.Certificates := listenerConfig.Certificates config;
           elbv2.ModifyListenerInput.SslPolicy := listenerConfig.SslPolicy config;
           elbv2.ModifyListenerInput.DefaultActions :=
             listenerConfig.DefaultActions config |} = (w, r)
      ∧ reconcileLSInstance controller (Some instance) config s
        = (mkState w (calls s ++ fieldChecks instance config
                      ++ [ModifyListenerCall (modifyInput instance config)]),
           afterModify instance r)
      ∧ Reconcile Use Default404Backend controller options s
        = match afterModify instance r with
          | Returns (l, None) =>
              let '(w', err) :=
                rs.Reconcile (rulesController controller) w l
                  (Ingress options) (IngressAnnos options) (TGGroup options) in
              (mkState w'
                 (calls s ++ fieldChecks instance config
                  ++ [ModifyListenerCall (modifyInput instance config);
                      RulesReconcileCall l (Ingress options) (IngressAnnos options)
                        (TGGroup options)]),
               Returns (match err with
                        | Some err => Some ("failed to reconcile rules due to " +:+ err)
                        | None => None
                        end))
          | Returns (_, Some err) =>
              (mkState w (calls s ++ fieldChecks instance config
                          ++ [ModifyListenerCall (modifyInput instance config)]),
               Returns (Some ("failed to reconcile listener due to " +:+ err)))
          | Panics p =>
              (mkState w (calls s ++ fieldChecks instance config
                          ++ [ModifyListenerCall (modifyInput instance config)]),
               Panics p)
          end.
Proof.
  intros Hi Hb Hd.
  pose proof (reconcileLSInstance_drift controller instance config s Hd) as Hr.
  rewrite (Reconcile_existing _ _ _ _ Hi Hb), Hr.
  change {| elbv2.ModifyListenerInput.ListenerArn := elbv2.Listener.ListenerArn instance;
            elbv2.ModifyListenerInput.Port := listenerConfig.Port config;
            elbv2.ModifyListenerInput.Protocol := listenerConfig.Protocol config;
            elbv2.ModifyListenerInput.Certificates := listenerConfig.Certificates config;
            elbv2.ModifyListenerInput.SslPolicy := listenerConfig.SslPolicy config;
            elbv2.ModifyListenerInput.DefaultActions :=
              listenerConfig.DefaultActions config |}
    with (modifyInput instance config).
  destruct (cloudapi.ModifyListenerWithContext _ _ _) as [w r].
  assert (Hm : modifyCalls (calls s ++ fieldChecks instance config
                            ++ [ModifyListenerCall (modifyInput instance config)])
               = modifyCalls (calls s) ++ [modifyInput instance config]).
  { by rewrite !modifyCalls_app, modifyCalls_fieldChecks. }
  split.
  - destruct (afterModify instance r) as [[l [err|]]|p]; cbn [fst calls world];
      try exact Hm.
    destruct (rs.Reconcile _ _ _ _ _ _) as [w' err]. cbn [fst calls].
    rewrite modifyCalls_app, Hm. cbn. by rewrite !app_nil_r.
  - exists w, r. split; [reflexivity|]. split; [reflexivity|].
    destruct (afterModify instance r) as [[l [err|]]|p]; cbn [world calls];
      try reflexivity.
    destruct (rs.Reconcile _ _ _ _ _ _) as [w' err].
    rewrite <- !app_assoc. reflexivity.
Qed.

End ExistingListener.

Lemma Reconcile_no_drift_no_update_scenarioC :
  reconcileLSInstance (Scenario.controller None) (Some (Scenario.listenerA 80))
    Scenario.configA Scenario.start
  = (mkState (world Scenario.start)
       (calls Scenario.start ++ fieldChecks (Scenario.listenerA 80) Scenario.configA),
     Returns (Some (Scenario.listenerA 80), None))
  ∧ modifyCalls (calls (Reconcile Scenario.Use Scenario.Default404Backend
                          (Scenario.controller None) Scenario.requestC Scenario.start).1)
    = modifyCalls (calls Scenario.start)
  ∧ ∃ w err,
      Reconcile Scenario.Use Scenario.Default404Backend (Scenario.controller None)
        Scenario.requestC Scenario.start
      = (mkState w (calls Scenario.start
                    ++ fieldChecks (Scenario.listenerA 80) Scenario.configA
                    ++ [RulesReconcileCall (Some (Scenario.listenerA 80))
                          (Ingress Scenario.requestC) (IngressAnnos Scenario.requestC)
                          (TGGroup Scenario.requestC)]),
         Returns err).
Proof.
  apply (Reconcile_no_drift_no_update Scenario.Use Scenario.Default404Backend
           (Scenario.controller None) Scenario.requestC (Scenario.listenerA 80)
           Scenario.configA Scenario.start); vm_compute; reflexivity.
Defined.

Lemma Reconcile_drift_one_update_scenarioD :
  modifyCalls (calls (Reconcile Scenario.Use Scenario.Default404Backend
                        (Scenario.controller None) Scenario.requestD Scenario.start).1)
  = modifyCalls (calls Scenario.start)
    ++ [ {| elbv2.ModifyListenerInput.ListenerArn := Some "listener-0";
            elbv2.ModifyListenerInput.Port := Some 80;
            elbv2.ModifyListenerInput.Protocol := Some "HTTP";
            elbv2.ModifyListenerInput.Certificates := None;
            elbv2.ModifyListenerInput.SslPolicy := None;
            elbv2.ModifyListenerInput.DefaultActions := Some [Some (forwardTo "tg-1")] |} ]
  ∧ ∃ w r,
      cloudapi.ModifyListenerWithContext (cloud (Scenario.controller None))
        (world Scenario.start)
        {| elbv2.ModifyListenerInput.ListenerArn := Some "listener-0";
           elbv2.ModifyListenerInput.Port := Some 80;
           elbv2.ModifyListenerInput.Protocol := Some "HTTP";
           elbv2.ModifyListenerInput.Certificates := None;
           elbv2.ModifyListenerInput.SslPolicy := None;
           elbv2.ModifyListenerInput.DefaultActions := Some [Some (forwardTo "tg-1")] |}
      = (w, r)
      ∧ reconcileLSInstance (Scenario.controller None) (Some (Scenario.listenerA 8080))
          Scenario.configA Scenario.start
        = (mkState w
             (calls Scenario.start
              ++ fieldChecks (Scenario.listenerA 8080) Scenario.configA
              ++ [ModifyListenerCall
                    (modifyInput (Scenario.listenerA 8080) Scenario.configA)]),
           afterModify (Scenario.listenerA 8080) r)
      ∧ Reconcile Scenario.Use Scenario.Default404Backend (Scenario.controller None)
          Scenario.requestD Scenario.start
        = match afterModify (Scenario.listenerA 8080) r with
          | Returns (l, None) =>
              let '(w', err) :=
                rs.Reconcile (rulesController (Scenario.controller None)) w l
                  (Ingress Scenario.requestD) (IngressAnnos Scenario.requestD)
                  (TGGroup Scenario.requestD) in
              (mkState w'
                 (calls Scenario.start
                  ++ fieldChecks (Scenario.listenerA 8080) Scenario.configA
                  ++ [ModifyListenerCall
                        (modifyInput (Scenario.listenerA 8080) Scenario.configA);
                      RulesReconcileCall l (Ingress Scenario.requestD)
                        (IngressAnnos Scenario.requestD) (TGGroup Scenario.requestD)]),
               Returns (match err with
                        | Some err => Some ("failed to reconcile rules due to " +:+ err)
                        | None => None
                        end))
          | Returns (_, Some err) =>
              (mkState w
                 (calls Scenario.start
                  ++ fieldChecks (Scenario.listenerA 8080) Scenario.configA
                  ++ [ModifyListenerCall
                        (modifyInput (Scenario.listenerA 8080) Scenario.configA)]),
               Returns (Some ("failed to reconcile listener due to " +:+ err)))
          | Panics p =>
              (mkState w
                 (calls Scenario.start
                  ++ fieldChecks (Scenario.listenerA 8080) Scenario.configA
                  ++ [ModifyListenerCall
                        (modifyInput (Scenario.listenerA 8080) Scenario.configA)]),
               Panics p)
          end.
Proof.
  apply (Reconcile_drift_one_update Scenario.Use Scenario.Default404Backend
           (Scenario.controller None) Scenario.requestD (Scenario.listenerA 8080)
           Scenario.configA Scenario.start).
  - reflexivity.
  - vm_compute. reflexivity.
  - left. vm_compute. intros H. discriminate H.
Defined.

(** ** The default actions *)

Section DefaultActions.

Variable Use : string -> bool.
Variable Default404Backend : extensions.IngressBackend.

(** The resolver, case by case, on a request with an ingress. *)
Lemma buildDefaultActions_run options ingress :
  Ingress options = Some ingress →
  buildDefaultActions Use Default404Backend options
  = let b := effectiveBackend Default404Backend ingress in
    if Use (intstr.String_ (extensions.ServicePort b)) then
      match IngressAnnos options with
      | None => Panics NilDereference
      | Some annos =>
          match action.GetAction (annotations.Action annos) (extensions.ServiceName b) with
          | Returns (_, Some err) => Returns (None, Some err)
          | Returns (a, None) => Returns (Some [a], None)
          | Panics p => Panics p
          end
      end
    else
      match tg.TGByBackend (TGGroup options) !! b with
      | None =>
          Returns (None,
                   Some ("unable to find targetGroup for backend "
                         +:+ extensions.ServiceName b +:+ ":"
                         +:+ intstr.String_ (extensions.ServicePort b)))
      | Some targetGroup => Returns (Some [Some (forwardTo (tg.Arn targetGroup))], None)
      end.
Proof.
  intros Hi. unfold buildDefaultActions, effectiveBackend. rewrite Hi. cbn.
  destruct (extensions.Backend (extensions.Spec ingress)) as [b|]; cbn;
    (destruct (Use _); [|destruct (_ !! _); reflexivity]);
    (destruct (IngressAnnos options) as [annos|]; [|reflexivity]); cbn;
    destruct (action.GetAction _ _) as [[a [err|]]|p]; reflexivity.
Qed.

Lemma buildDefaultActions_nil_ingress options :
  Ingress options = None → buildDefaultActions Use Default404Backend options = Panics NilDereference.
Proof. intros Hi. unfold buildDefaultActions. by rewrite Hi. Qed.

(** With ingress and annotations present the resolver returns. *)
Lemma buildDefaultActions_returns options ingress annos c :
  Ingress options = Some ingress → IngressAnnos options = Some annos →
  annotations.Action annos = Some c →
  ∃ actions err, buildDefaultActions Use Default404Backend options = Returns (actions, err).
Proof.
  intros Hi Ha Hc. rewrite (buildDefaultActions_run _ _ Hi), Ha, Hc. cbn.
  destruct (Use _).
  - destruct (action.lookup _ _) as [a [err|]]; eauto.
  - destruct (_ !! _); eauto.
Qed.


(** C10. Whenever the resolver succeeds the action list has exactly one
    element: the action the annotations give for the backend's name when
    the backend's port asks for a custom action (the fallback backend
    included), and else the forward action to the backend's target
    group. *)
Theorem buildDefaultActions_singleton options actions :
  buildDefaultActions Use Default404Backend options = Returns (actions, None) →
  ∃ a ingress,
    actions = Some [a]
    ∧ Ingress options = Some ingress
    ∧ let b := effectiveBackend Default404Backend ingress in
      if Use (intstr.String_ (extensions.ServicePort b)) then
        ∃ annos, IngressAnnos options = Some annos
                 ∧ action.GetAction (annotations.Action annos) (extensions.ServiceName b)
                   = Returns (a, None)
      else
        ∃ targetGroup, tg.TGByBackend (TGGroup options) !! b = Some targetGroup
                       ∧ a = Some (forwardTo (tg.Arn targetGroup)).
Proof.
  intros H. destruct (Ingress options) as [ingress|] eqn:Hi.
  2: { by rewrite buildDefaultActions_nil_ingress in H. }
  rewrite (buildDefaultActions_run _ _ Hi) in H. cbn zeta in H |- *.
  destruct (Use _) eqn:Hu.
  - destruct (IngressAnnos options) as [annos|]; [|discriminate].
    destruct (action.GetAction _ _) as [[a [err|]]|p] eqn:Hg; simplify_eq.
    exists a, ingress. rewrite Hu. eauto.
  - destruct (_ !! _) as [targetGroup|] eqn:Ht; simplify_eq.
    eexists _, ingress. rewrite Hu. eauto.
Qed.

(** C5. When the backend the actions are resolved for does not ask for a
    custom action and has no entry in the target-group map, the resolver
    returns no action at all, and the error that names the backend's
    service name and port. *)
Theorem buildDefaultActions_unresolved options ingress :
  Ingress options = Some ingress →
  Use (intstr.String_ (extensions.ServicePort (effectiveBackend Default404Backend ingress)))
  = false →
  tg.TGByBackend (TGGroup options) !! effectiveBackend Default404Backend ingress = None →
  buildDefaultActions Use Default404Backend options
  = Returns (None,
             Some ("unable to find targetGroup for backend "
                   +:+ extensions.ServiceName (effectiveBackend Default404Backend ingress)
                   +:+ ":"
                   +:+ intstr.String_ (extensions.ServicePort
                                         (effectiveBackend Default404Backend ingress)))).
Proof.
  intros Hi Hu Ht. rewrite (buildDefaultActions_run _ _ Hi). cbn zeta.
  by rewrite Hu, Ht.
Qed.

End DefaultActions.


Lemma buildDefaultActions_singleton_scenarioA :
  ∃ a ingress,
    Some [Some (forwardTo "tg-1")] = Some [a]
    ∧ Ingress Scenario.requestA = Some ingress
    ∧ let b := effectiveBackend Scenario.Default404Backend ingress in
      if Scenario.Use (intstr.String_ (extensions.ServicePort b)) then
        ∃ annos, IngressAnnos Scenario.requestA = Some annos
                 ∧ action.GetAction (annotations.Action annos) (extensions.ServiceName b)
                   = Returns (a, None)
      else
        ∃ targetGroup, tg.TGByBackend (TGGroup Scenario.requestA) !! b = Some targetGroup
                       ∧ a = Some (forwardTo (tg.Arn targetGroup)).
Proof.
  apply (buildDefaultActions_singleton Scenario.Use Scenario.Default404Backend
           Scenario.requestA).
  vm_compute. reflexivity.
Defined.

Lemma buildDefaultActions_unresolved_svcA :
  buildDefaultActions Scenario.Use Scenario.Default404Backend Scenario.requestUnresolved
  = Returns (None, Some "unable to find targetGroup for backend svcA:8080").
Proof.
  apply (buildDefaultActions_unresolved Scenario.Use Scenario.Default404Backend
           Scenario.requestUnresolved
           (extensions.mkIngress (extensions.mkSpec (Some Scenario.svcA))));
    vm_compute; reflexivity.
Defined.

(** ** The listener configuration *)

Section ListenerConfig.

Variable Use : string -> bool.
Variable Default404Backend : extensions.IngressBackend.

(** With ingress and annotations present (the annotations' action and
    listener parts included) the builder returns. *)
Lemma buildListenerConfig_returns options ingress annos c l :
  Ingress options = Some ingress → IngressAnnos options = Some annos →
  annotations.Action annos = Some c → annotations.Listener annos = Some l →
  ∃ config err, buildListenerConfig Use Default404Backend options = Returns (config, err).
Proof.
  intros Hi Ha Hc Hl.
  destruct (buildDefaultActions_returns Use Default404Backend _ _ _ _ Hi Ha Hc)
    as (actions & err & Hd).
  unfold buildListenerConfig. rewrite Ha, Hd. cbn. rewrite Hl. cbn.
  case_bool_decide; cbn; destruct err; cbn; eauto.
Qed.

(** C6. In the configuration the builder returns, certificates and SSL
    policy are nil unless the scheme is HTTPS; for HTTPS the certificates
    are the one certificate of the annotations' certificate reference,
    marked default, or nil when there is no reference, and the SSL policy
    is that of the annotations, nil when they have none. *)
Theorem buildListenerConfig_tls options config err :
  buildListenerConfig Use Default404Backend options = Returns (config, err) →
  (loadbalancer.Scheme (Port options) ≠ elbv2.ProtocolEnumHttps →
   listenerConfig.Certificates config = None
   ∧ listenerConfig.SslPolicy config = None)
  ∧ (loadbalancer.Scheme (Port options) = elbv2.ProtocolEnumHttps →
     ∃ annos l,
       IngressAnnos options = Some annos
       ∧ annotations.Listener annos = Some l
       ∧ listenerConfig.Certificates config
         = match listener.CertificateArn l with
           | Some arn =>
               Some [Some {| elbv2.Certificate.CertificateArn := Some arn;
                             elbv2.Certificate.IsDefault := Some true |}]
           | None => None
           end
       ∧ listenerConfig.SslPolicy config = listener.SslPolicy l).
Proof.
  unfold buildListenerConfig.
  case_bool_decide as Hs.
  - destruct (IngressAnnos options) as [annos|]; [|discriminate].
    cbn [deref mbind outcome_bind].
    destruct (annotations.Listener annos) as [l|] eqn:Hl; [|discriminate].
    cbn [deref mbind outcome_bind].
    destruct (listener.CertificateArn _) as [arn|] eqn:Hc,
             (listener.SslPolicy _) as [policy|] eqn:Hp;
      destruct (buildDefaultActions _ _ _) as [[actions [e|]]|];
      cbn; unfold mret, outcome_ret; intros H; simplify_eq;
      (split; [done|]; intros _; exists annos, l; rewrite Hc, Hp; done).
  - destruct (buildDefaultActions _ _ _) as [[actions [e|]]|];
      cbn; unfold mret, outcome_ret; intros H; by simplify_eq.
Qed.

(** C8, as the code has it. An error of the default-actions resolver is
    returned by the configuration builder as it is, not under a context,
    next to the configuration built so far: the port, the protocol and
    the TLS fields, without default actions.  Only for an HTTPS listener
    whose annotations, or their listener part, are nil does the builder
    not get that far: it panics before the actions are resolved.  The
    context "failed to build listener config due to " is put before the
    error by [Reconcile], which then returns without a call. *)
Theorem buildListenerConfig_error_unchanged options actions e :
  buildDefaultActions Use Default404Backend options = Returns (actions, Some e) →
  (loadbalancer.Scheme (Port options) ≠ elbv2.ProtocolEnumHttps →
   buildListenerConfig Use Default404Backend options
   = Returns ({| listenerConfig.Port := Some (loadbalancer.Port (Port options));
                 listenerConfig.Protocol := Some (loadbalancer.Scheme (Port options));
                 listenerConfig.SslPolicy := None;
                 listenerConfig.Certificates := None;
                 listenerConfig.DefaultActions := None |},
              Some e))
  ∧ (loadbalancer.Scheme (Port options) = elbv2.ProtocolEnumHttps →
     ∀ annos l,
       IngressAnnos options = Some annos →
       annotations.Listener annos = Some l →
       buildListenerConfig Use Default404Backend options
       = Returns ({| listenerConfig.Port := Some (loadbalancer.Port (Port options));
                     listenerConfig.Protocol := Some (loadbalancer.Scheme (Port options));
                     listenerConfig.SslPolicy := listener.SslPolicy l;
                     listenerConfig.Certificates :=
                       match listener.CertificateArn l with
                       | Some arn =>
                           Some [Some {| elbv2.Certificate.CertificateArn := Some arn;
                                         elbv2.Certificate.IsDefault := Some true |}]
                       | None => None
                       end;
                     listenerConfig.DefaultActions := None |},
                  Some e))
  ∧ (loadbalancer.Scheme (Port options) = elbv2.ProtocolEnumHttps →
     IngressAnnos options = None
     ∨ (∃ annos, IngressAnnos options = Some annos ∧ annotations.Listener annos = None) →
     buildListenerConfig Use Default404Backend options = Panics NilDereference)
  ∧ ∀ (W : Type) (controller : defaultController W) (s : state W),
      Reconcile Use Default404Backend controller options s
      = (s,
         match buildListenerConfig Use Default404Backend options with
         | Returns _ => Returns (Some ("failed to build listener config due to " +:+ e))
         | Panics p => Panics p
         end).
Proof.
  intros Hd. unfold Reconcile, lift, mbind at 2, M_bind at 1.
  unfold buildListenerConfig. rewrite Hd.
  case_bool_decide as Hs.
  - split; [done|].
    destruct (IngressAnnos options) as [annos|] eqn:Ha; cbn [deref mbind outcome_bind].
    + destruct (annotations.Listener annos) as [l|] eqn:Hl; cbn [deref mbind outcome_bind].
      * split; [|split; [|done]].
        -- intros _ annos' l' [= <-] Hl'. rewrite Hl in Hl'. injection Hl' as <-.
           by destruct (listener.CertificateArn l), (listener.SslPolicy l).
        -- intros _ [|(annos' & [= <-] & Hl')]; congruence.
      * split; [|split; [|done]]; [intros _ annos' l' [= <-] Hl'; congruence | done].
    + split; [|split; [|done]]; [intros _ annos l H; discriminate | done].
  - cbn. split; [done|]. split; [done|]. split; [done|]. done.
Qed.

End ListenerConfig.

Lemma buildListenerConfig_tls_scenarioB :
  (loadbalancer.Scheme (Port Scenario.requestB) ≠ elbv2.ProtocolEnumHttps →
   listenerConfig.Certificates Scenario.configB = None
   ∧ listenerConfig.SslPolicy Scenario.configB = None)
  ∧ (loadbalancer.Scheme (Port Scenario.requestB) = elbv2.ProtocolEnumHttps →
     ∃ annos l,
       IngressAnnos Scenario.requestB = Some annos
       ∧ annotations.Listener annos = Some l
       ∧ listenerConfig.Certificates Scenario.configB
         = match listener.CertificateArn l with
           | Some arn =>
               Some [Some {| elbv2.Certificate.CertificateArn := Some arn;
                             elbv2.Certificate.IsDefault := Some true |}]
           | None => None
           end
       ∧ listenerConfig.SslPolicy Scenario.configB = listener.SslPolicy l).
Proof.
  apply (buildListenerConfig_tls Scenario.Use Scenario.Default404Backend
           Scenario.requestB Scenario.configB None).
  vm_compute. reflexivity.
Defined.

(** C8, as stated, fails: on a request whose backend has no target group
    the builder returns the resolver's error itself, not that error under
    the build-stage context. *)
Lemma buildListenerConfig_error_not_wrapped :
  buildDefaultActions Scenario.Use Scenario.Default404Backend Scenario.requestUnresolved
  = Returns (None, Some "unable to find targetGroup for backend svcA:8080")
  ∧ (∃ config,
       buildListenerConfig Scenario.Use Scenario.Default404Backend
         Scenario.requestUnresolved
       = Returns (config, Some "unable to find targetGroup for backend svcA:8080"))
  ∧ ¬ (∃ config,
         buildListenerConfig Scenario.Use Scenario.Default404Backend
           Scenario.requestUnresolved
         = Returns (config,
                    Some ("failed to build listener config due to "
                          +:+ "unable to find targetGroup for backend svcA:8080"))).
Proof.
  split; [vm_compute; reflexivity|]. split.
  - eexists. vm_compute. reflexivity.
  - intros [config H]. vm_compute in H. discriminate H.
Qed.

Lemma buildListenerConfig_error_unchanged_unresolved :
  buildListenerConfig Scenario.Use Scenario.Default404Backend Scenario.requestUnresolved
  = Returns ({| listenerConfig.Port := Some 80;
                listenerConfig.Protocol := Some "HTTP";
                listenerConfig.SslPolicy := None;
                listenerConfig.Certificates := None;
                listenerConfig.DefaultActions := None |},
             Some "unable to find targetGroup for backend svcA:8080")
  ∧ ∀ (W : Type) (controller : defaultController W) (s : state W),
      Reconcile Scenario.Use Scenario.Default404Backend controller
        Scenario.requestUnresolved s
      = (s,
         match buildListenerConfig Scenario.Use Scenario.Default404Backend
                 Scenario.requestUnresolved with
         | Returns _ =>
             Returns (Some ("failed to build listener config due to "
                            +:+ "unable to find targetGroup for backend svcA:8080"))
         | Panics p => Panics p
         end).
Proof.
  pose proof (buildListenerConfig_error_unchanged Scenario.Use Scenario.Default404Backend
                Scenario.requestUnresolved None
                "unable to find targetGroup for backend svcA:8080"
                ltac:(vm_compute; reflexivity)) as (Hhttp & _ & _ & Hrec).
  split; [|exact Hrec].
  apply Hhttp. vm_compute. intros H. discriminate H.
Defined.

(** ** The whole reconciliation *)

Section Lifecycle.

Context {W : Type}.
Variable Use : string -> bool.
Variable Default404Backend : extensions.IngressBackend.
Variable controller : defaultController W.

(** Reconciliation of a request without listener, once the configuration
    is built: the create call, then the rules controller. *)
Lemma Reconcile_new options config (s : state W) :
  Instance_ options = None →
  buildListenerConfig Use Default404Backend options = Returns (config, None) →
  Reconcile Use Default404Backend controller options s
  = match newLSInstance controller (LBArn options) config s with
    | (s1, Returns (l, None)) =>
        let '(w, err) := rs.Reconcile (rulesController controller) (world s1) l
                           (Ingress options) (IngressAnnos options) (TGGroup options) in
        (mkState w (calls s1 ++ [RulesReconcileCall l (Ingress options)
                                   (IngressAnnos options) (TGGroup options)]),
         Returns (match err with
                  | Some err => Some ("failed to reconcile rules due to " +:+ err)
                  | None => None
                  end))
    | (s1, Returns (_, Some err)) =>
        (s1, Returns (Some ("failed to create listener due to " +:+ err)))
    | (s1, Panics p) => (s1, Panics p)
    end.
Proof.
  intros Hi Hb. unfold Reconcile, lift, mbind at 1, M_bind at 1.
  rewrite Hb, Hi. cbn beta iota. unfold mbind, M_bind.
  destruct (newLSInstance _ _ _ _) as [s1 [[l [err|]]|p]]; cbn; try reflexivity.
  unfold rulesReconcile.
  destruct (rs.Reconcile _ _ _ _ _ _) as [w [err|]]; reflexivity.
Qed.

(** [Reconcile] returns [nil] only when the configuration was built. *)
Lemma Reconcile_success_built options (s s' : state W) :
  Reconcile Use Default404Backend controller options s = (s', Returns None) →
  ∃ config, buildListenerConfig Use Default404Backend options = Returns (config, None).
Proof.
  unfold Reconcile, lift, mbind at 1, M_bind at 1.
  destruct (buildListenerConfig _ _ _) as [[config [err|]]|p]; [discriminate|eauto|discriminate].
Qed.

Lemma afterCreate_success r l :
  afterCreate r = Returns (l, None) →
  ∃ resp rest, r = (Some resp, None)
               ∧ elbv2.CreateListenerOutput.Listeners resp = Some (l :: rest).
Proof.
  destruct r as [[[[[|l' rest]|]]|] [err|]]; cbn; unfold mret, outcome_ret;
    intros H; simplify_eq. eexists _, _. split; reflexivity.
Qed.

Lemma afterModify_success instance r l :
  afterModify instance r = Returns (l, None) →
  ∃ output rest, r = (Some output, None)
                 ∧ elbv2.ModifyListenerOutput.Listeners output = Some (l :: rest).
Proof.
  destruct r as [[[[[|l' rest]|]]|] [err|]]; cbn; unfold mret, outcome_ret;
    intros H; simplify_eq. eexists _, _. split; reflexivity.
Qed.

(** C7, as the code has it. [Reconcile] returns an error value only: on
    success it returns [nil], and the resulting listener is what it hands
    to the rules controller in its last call: the first listener of the
    create call's answer when the request has no listener, the first
    listener of the update call's answer when the request's listener has
    drifted, and the request's listener itself otherwise. *)
Theorem Reconcile_success_listener options (s s' : state W) :
  Reconcile Use Default404Backend controller options s = (s', Returns None) →
  ∃ config instance,
    buildListenerConfig Use Default404Backend options = Returns (config, None)
    ∧ last (calls s')
      = Some (RulesReconcileCall instance (Ingress options) (IngressAnnos options)
                (TGGroup options))
    ∧ match Instance_ options with
      | None =>
          ∃ w resp rest,
            cloudapi.CreateListenerWithContext (cloud controller) (world s)
              (createInput (LBArn options) config) = (w, (Some resp, None))
            ∧ elbv2.CreateListenerOutput.Listeners resp = Some (instance :: rest)
      | Some existing =>
          if decide (drift existing config) then
            ∃ w output rest,
              cloudapi.ModifyListenerWithContext (cloud controller) (world s)
                (modifyInput existing config) = (w, (Some output, None))
              ∧ elbv2.ModifyListenerOutput.Listeners output = Some (instance :: rest)
          else instance = Some existing
      end.
Proof.
  intros H. destruct (Reconcile_success_built _ _ _ H) as [config Hb].
  exists config. destruct (Instance_ options) as [existing|] eqn:Hi.
  - rewrite (Reconcile_existing _ _ _ _ _ _ _ Hi Hb) in H.
    destruct (decide (drift existing config)) as [Hd|Hd].
    + rewrite (reconcileLSInstance_drift _ _ _ _ Hd) in H.
      destruct (cloudapi.ModifyListenerWithContext _ _ _) as [w r].
      destruct (afterModify existing r) as [[l [err|]]|p] eqn:Ha; try discriminate.
      cbn [world calls] in H.
      destruct (rs.Reconcile _ _ _ _ _ _) as [w' [err|]]; simplify_eq.
      exists l. split; [done|]. split; [cbn [calls]; by rewrite last_snoc|].
      destruct (afterModify_success _ _ _ Ha) as (output & rest & -> & Hl). eauto.
    + rewrite (reconcileLSInstance_no_drift _ _ _ _ Hd) in H. cbn [world calls] in H.
      destruct (rs.Reconcile _ _ _ _ _ _) as [w' [err|]]; simplify_eq.
      exists (Some existing). split; [done|]. split; [cbn [calls]; by rewrite last_snoc|done].
  - rewrite (Reconcile_new _ _ _ Hi Hb), newLSInstance_run in H.
    destruct (cloudapi.CreateListenerWithContext _ _ _) as [w r].
    destruct (afterCreate r) as [[l [err|]]|p] eqn:Ha; try discriminate.
    cbn [world calls] in H.
    destruct (rs.Reconcile _ _ _ _ _ _) as [w' [err|]]; simplify_eq.
    exists l. split; [done|]. split; [cbn [calls]; by rewrite last_snoc|].
    destruct (afterCreate_success _ _ Ha) as (resp & rest & -> & Hl). eauto.
Qed.

(** C9. When the create call, or the update call for a drifted listener,
    succeeds and the rules controller then fails, [Reconcile] returns the
    rules controller's error under the context "failed to reconcile rules
    due to ", and the rules controller's call is its last: the trace is
    the listener stage's followed by that call, and the world is as the
    rules controller left it. *)
Theorem Reconcile_rules_failure_no_rollback options config (s : state W) w1 l rest w2 e :
  buildListenerConfig Use Default404Backend options = Returns (config, None) →
  rs.Reconcile (rulesController controller) w1 l
    (Ingress options) (IngressAnnos options) (TGGroup options) = (w2, Some e) →
  (Instance_ options = None →
   ∀ resp,
     cloudapi.CreateListenerWithContext (cloud controller) (world s)
       (createInput (LBArn options) config) = (w1, (Some resp, None)) →
     elbv2.CreateListenerOutput.Listeners resp = Some (l :: rest) →
     Reconcile Use Default404Backend controller options s
     = (mkState w2
          (calls s
           ++ [CreateListenerCall (createInput (LBArn options) config);
               RulesReconcileCall l (Ingress options) (IngressAnnos options)
                 (TGGroup options)]),
        Returns (Some ("failed to reconcile rules due to " +:+ e))))
  ∧ (∀ existing output,
       Instance_ options = Some existing →
       drift existing config →
       cloudapi.ModifyListenerWithContext (cloud controller) (world s)
         (modifyInput existing config) = (w1, (Some output, None)) →
       elbv2.ModifyListenerOutput.Listeners output = Some (l :: rest) →
       Reconcile Use Default404Backend controller options s
       = (mkState w2
            (calls s ++ fieldChecks existing config
             ++ [ModifyListenerCall (modifyInput existing config);
                 RulesReconcileCall l (Ingress options) (IngressAnnos options)
                   (TGGroup options)]),
          Returns (Some ("failed to reconcile rules due to " +:+ e)))).
Proof.
  intros Hb Hr. split.
  - intros Hi resp Hc Hl.
    rewrite (Reconcile_new _ _ _ Hi Hb), newLSInstance_run, Hc.
    cbn. rewrite Hl. cbn. rewrite Hr, <- app_assoc. reflexivity.
  - intros existing output Hi Hd Hm Hl.
    rewrite (Reconcile_existing _ _ _ _ _ _ _ Hi Hb),
      (reconcileLSInstance_drift _ _ _ _ Hd), Hm.
    cbn. rewrite Hl. cbn. rewrite Hr, <- !app_assoc. reflexivity.
Qed.

End Lifecycle.

Lemma Reconcile_success_listener_scenarioA :
  ∃ config instance,
    buildListenerConfig Scenario.Use Scenario.Default404Backend Scenario.requestA
    = Returns (config, None)
    ∧ last (calls (Reconcile Scenario.Use Scenario.Default404Backend
                     (Scenario.controller None) Scenario.requestA Scenario.start).1)
      = Some (RulesReconcileCall instance (Ingress Scenario.requestA)
                (IngressAnnos Scenario.requestA) (TGGroup Scenario.requestA))
    ∧ match Instance_ Scenario.requestA with
      | None =>
          ∃ w resp rest,
            cloudapi.CreateListenerWithContext (cloud (Scenario.controller None))
              (world Scenario.start)
              (createInput (LBArn Scenario.requestA) config) = (w, (Some resp, None))
            ∧ elbv2.CreateListenerOutput.Listeners resp = Some (instance :: rest)
      | Some existing =>
          if decide (drift existing config) then
            ∃ w output rest,
              cloudapi.ModifyListenerWithContext (cloud (Scenario.controller None))
                (world Scenario.start)
                (modifyInput existing config) = (w, (Some output, None))
              ∧ elbv2.ModifyListenerOutput.Listeners output = Some (instance :: rest)
          else instance = Some existing
      end.
Proof.
  apply (Reconcile_success_listener Scenario.Use Scenario.Default404Backend
           (Scenario.controller None) Scenario.requestA Scenario.start).
  vm_compute. reflexivity.
Defined.

(** C7, as stated, fails: what [Reconcile] returns is not the listener.
    A successful creation and a successful reconciliation of an unchanged
    listener return the same value, [nil], while their listeners, handed
    to the rules controller, differ. *)
Lemma Reconcile_returns_no_listener :
  (Reconcile Scenario.Use Scenario.Default404Backend (Scenario.controller None)
     Scenario.requestA Scenario.start).2 = Returns None
  ∧ (Reconcile Scenario.Use Scenario.Default404Backend (Scenario.controller None)
       Scenario.requestC Scenario.start).2 = Returns None
  ∧ last (calls (Reconcile Scenario.Use Scenario.Default404Backend
                   (Scenario.controller None) Scenario.requestA Scenario.start).1)
    = Some (RulesReconcileCall (Some Scenario.createdA) (Ingress Scenario.requestA)
              (IngressAnnos Scenario.requestA) (TGGroup Scenario.requestA))
  ∧ last (calls (Reconcile Scenario.Use Scenario.Default404Backend
                   (Scenario.controller None) Scenario.requestC Scenario.start).1)
    = Some (RulesReconcileCall (Some (Scenario.listenerA 80)) (Ingress Scenario.requestC)
              (IngressAnnos Scenario.requestC) (TGGroup Scenario.requestC))
  ∧ Scenario.createdA ≠ Scenario.listenerA 80.
Proof.
  repeat split; try (vm_compute; reflexivity).
  intros H. vm_compute in H. discriminate H.
Qed.

Lemma Reconcile_rules_failure_no_rollback_scenarios :
  Reconcile Scenario.Use Scenario.Default404Backend (Scenario.controller (Some "throttled"))
    Scenario.requestA Scenario.start
  = (mkState [Scenario.createdA]
       (calls Scenario.start
        ++ [CreateListenerCall (createInput (LBArn Scenario.requestA) Scenario.configA);
            RulesReconcileCall (Some Scenario.createdA) (Ingress Scenario.requestA)
              (IngressAnnos Scenario.requestA) (TGGroup Scenario.requestA)]),
     Returns (Some ("failed to reconcile rules due to " +:+ "throttled")))
  ∧ Reconcile Scenario.Use Scenario.Default404Backend
      (Scenario.controller (Some "throttled")) Scenario.requestD Scenario.start
    = (mkState [Scenario.listenerA 80]
         (calls Scenario.start ++ fieldChecks (Scenario.listenerA 8080) Scenario.configA
          ++ [ModifyListenerCall (modifyInput (Scenario.listenerA 8080) Scenario.configA);
              RulesReconcileCall (Some (Scenario.listenerA 80)) (Ingress Scenario.requestD)
                (IngressAnnos Scenario.requestD) (TGGroup Scenario.requestD)]),
       Returns (Some ("failed to reconcile rules due to " +:+ "throttled"))).
Proof.
  split.
  - apply (proj1 (Reconcile_rules_failure_no_rollback Scenario.Use
                    Scenario.Default404Backend (Scenario.controller (Some "throttled"))
                    Scenario.requestA Scenario.configA Scenario.start
                    [Scenario.createdA] (Some Scenario.createdA) []
                    [Scenario.createdA] "throttled"
                    ltac:(vm_compute; reflexivity) ltac:(reflexivity))
             ltac:(reflexivity)
             (elbv2.CreateListenerOutput.mk (Some [Some Scenario.createdA])));
      vm_compute; reflexivity.
  - apply (proj2 (Reconcile_rules_failure_no_rollback Scenario.Use
                    Scenario.Default404Backend (Scenario.controller (Some "throttled"))
                    Scenario.requestD Scenario.configA Scenario.start
                    [Scenario.listenerA 80] (Some (Scenario.listenerA 80)) []
                    [Scenario.listenerA 80] "throttled"
                    ltac:(vm_compute; reflexivity) ltac:(reflexivity))
             (Scenario.listenerA 8080)
             (elbv2.ModifyListenerOutput.mk (Some [Some (Scenario.listenerA 80)])));
      [reflexivity | left; vm_compute; intros H; discriminate H
      | vm_compute; reflexivity | reflexivity].
Defined.

(** * Further properties of the controller *)

Lemma createCalls_app t1 t2 :
  createCalls (t1 ++ t2) = createCalls t1 ++ createCalls t2.
Proof. apply omap_app. Qed.

Lemma rulesCalls_app t1 t2 :
  rulesCalls (t1 ++ t2) = rulesCalls t1 ++ rulesCalls t2.
Proof. apply omap_app. Qed.

(** ** The create path *)

Section CreatePath.

Context {W : Type}.
Variable Use : string -> bool.
Variable Default404Backend : extensions.IngressBackend.
Variable controller : defaultController W.

(** X1. For a request without listener whose configuration is built,
    [Reconcile] makes exactly one [CreateListener] call, for the request's
    load balancer and with all five fields of the configuration, and no
    [ModifyListener] call.  The call is the cloud's operation, applied to
    the world as [Reconcile] found it: the create stage returns what the
    cloud answered and leaves the world as the cloud left it, and
    [Reconcile] goes on from there. *)
Theorem Reconcile_create_one_call options config (s : state W) :
  Instance_ options = None →
  buildListenerConfig Use Default404Backend options = Returns (config, None) →
  createCalls (calls (Reconcile Use Default404Backend controller options s).1)
  = createCalls (calls s)
    ++ [ {| elbv2.CreateListenerInput.LoadBalancerArn := Some (LBArn options);
            elbv2.CreateListenerInput.Port := listenerConfig.Port config;
            elbv2.CreateListenerInput.Protocol := listenerConfig.Protocol config;
            elbv2.CreateListenerInput.Certificates := listenerConfig.Certificates config;
            elbv2.CreateListenerInput.SslPolicy := listenerConfig.SslPolicy config;
            elbv2.CreateListenerInput.DefaultActions :=
              listenerConfig.DefaultActions config |} ]
  ∧ modifyCalls (calls (Reconcile Use Default404Backend controller options s).1)
    = modifyCalls (calls s)
  ∧ ∃ w r,
      cloudapi.CreateListenerWithContext (cloud controller) (world s)
        {| elbv2.CreateListenerInput.LoadBalancerArn := Some (LBArn options);
           elbv2.CreateListenerInput.Port := listenerConfig.Port config;
           elbv2.CreateListenerInput.Protocol := listenerConfig.Protocol config;
           elbv2.CreateListenerInput.Certificates := listenerConfig.Certificates config;
           elbv2.CreateListenerInput.SslPolicy := listenerConfig.SslPolicy config;
           elbv2.CreateListenerInput.DefaultActions :=
             listenerConfig.DefaultActions config |} = (w, r)
      ∧ newLSInstance controller (LBArn options) config s
        = (mkState w (calls s ++ [CreateListenerCall (createInput (LBArn options) config)]),
           afterCreate r)
      ∧ Reconcile Use Default404Backend controller options s
        = match afterCreate r with
          | Returns (l, None) =>
              let '(w', err) :=
                rs.Reconcile (rulesController controller) w l
                  (Ingress options) (IngressAnnos options) (TGGroup options) in
              (mkState w'
                 (calls s
                  ++ [CreateListenerCall (createInput (LBArn options) config);
                      RulesReconcileCall l (Ingress options) (IngressAnnos options)
                        (TGGroup options)]),
               Returns (match err with
                        | Some err => Some ("failed to reconcile rules due to " +:+ err)
                        | None => None
                        end))
          | Returns (_, Some err) =>
              (mkState w
                 (calls s ++ [CreateListenerCall (createInput (LBArn options) config)]),
               Returns (Some ("failed to create listener due to " +:+ err)))
          | Panics p =>
              (mkState w
                 (calls s ++ [CreateListenerCall (createInput (LBArn options) config)]),
               Panics p)
          end.
Proof.
  intros Hi Hb.
  rewrite (Reconcile_new _ _ _ _ _ _ Hi Hb), newLSInstance_run.
  change {| elbv2.CreateListenerInput.LoadBalancerArn := Some (LBArn options);
            elbv2.CreateListenerInput.Port := listenerConfig.Port config;
            elbv2.CreateListenerInput.Protocol := listenerConfig.Protocol config;
            elbv2.CreateListenerInput.Certificates := listenerConfig.Certificates config;
            elbv2.CreateListenerInput.SslPolicy := listenerConfig.SslPolicy config;
            elbv2.CreateListenerInput.DefaultActions :=
              listenerConfig.DefaultActions config |}
    with (createInput (LBArn options) config).
  destruct (cloudapi.CreateListenerWithContext _ _ _) as [w r].
  split; [|split].
  - destruct (afterCreate r) as [[l [err|]]|p]; cbn [fst calls world];
      try (rewrite createCalls_app; reflexivity).
    destruct (rs.Reconcile _ _ _ _ _ _) as [w' err]. cbn [fst calls].
    rewrite !createCalls_app. cbn. by rewrite !app_nil_r.
  - destruct (afterCreate r) as [[l [err|]]|p]; cbn [fst calls world];
      try (rewrite modifyCalls_app; cbn; by rewrite app_nil_r).
    destruct (rs.Reconcile _ _ _ _ _ _) as [w' err]. cbn [fst calls].
    rewrite !modifyCalls_app. cbn. by rewrite !app_nil_r.
  - exists w, r. split; [reflexivity|]. split; [reflexivity|].
    destruct (afterCreate r) as [[l [err|]]|p]; cbn [world calls]; try reflexivity.
    destruct (rs.Reconcile _ _ _ _ _ _) as [w' err].
    rewrite <- !app_assoc. reflexivity.
Qed.

(** X2. When the create call fails, [Reconcile] returns the cloud's error
    under the context "failed to create listener due to " and stops: the
    create call is its only call, the rules controller is not called, and
    a response that came with the error is not looked at. *)
Theorem Reconcile_create_failure options config (s : state W) w resp e :
  Instance_ options = None →
  buildListenerConfig Use Default404Backend options = Returns (config, None) →
  cloudapi.CreateListenerWithContext (cloud controller) (world s)
    (createInput (LBArn options) config) = (w, (resp, Some e)) →
  Reconcile Use Default404Backend controller options s
  = (mkState w (calls s ++ [CreateListenerCall (createInput (LBArn options) config)]),
     Returns (Some ("failed to create listener due to " +:+ e))).
Proof.
  intros Hi Hb Hc.
  rewrite (Reconcile_new _ _ _ _ _ _ Hi Hb), newLSInstance_run, Hc. reflexivity.
Qed.

(** X3. When the create call succeeds without a first listener (no
    response, or a nil or empty list of listeners), [Reconcile] panics
    after the call: nothing is returned and the rules controller is not
    called. *)
Theorem Reconcile_create_no_listener options config (s : state W) w resp :
  Instance_ options = None →
  buildListenerConfig Use Default404Backend options = Returns (config, None) →
  cloudapi.CreateListenerWithContext (cloud controller) (world s)
    (createInput (LBArn options) config) = (w, (resp, None)) →
  noListener (elbv2.CreateListenerOutput.Listeners <$> resp) →
  Reconcile Use Default404Backend controller options s
  = (mkState w (calls s ++ [CreateListenerCall (createInput (LBArn options) config)]),
     Panics (noListenerPanic (elbv2.CreateListenerOutput.Listeners <$> resp))).
Proof.
  intros Hi Hb Hc Hn.
  rewrite (Reconcile_new _ _ _ _ _ _ Hi Hb), newLSInstance_run, Hc.
  destruct resp as [[listeners]|]; [|reflexivity].
  destruct Hn as [Hn|[Hn|Hn]]; cbn in Hn; simplify_eq; reflexivity.
Qed.

End CreatePath.

Lemma Reconcile_create_one_call_scenarioA :
  createCalls (calls (Reconcile Scenario.Use Scenario.Default404Backend
                        (Scenario.controller None) Scenario.requestA Scenario.start).1)
  = createCalls (calls Scenario.start)
    ++ [ {| elbv2.CreateListenerInput.LoadBalancerArn := Some (LBArn Scenario.requestA);
            elbv2.CreateListenerInput.Port := listenerConfig.Port Scenario.configA;
            elbv2.CreateListenerInput.Protocol := listenerConfig.Protocol Scenario.configA;
            elbv2.CreateListenerInput.Certificates :=
              listenerConfig.Certificates Scenario.configA;
            elbv2.CreateListenerInput.SslPolicy := listenerConfig.SslPolicy Scenario.configA;
            elbv2.CreateListenerInput.DefaultActions :=
              listenerConfig.DefaultActions Scenario.configA |} ]
  ∧ modifyCalls (calls (Reconcile Scenario.Use Scenario.Default404Backend
                          (Scenario.controller None) Scenario.requestA Scenario.start).1)
    = modifyCalls (calls Scenario.start)
  ∧ ∃ w r,
      cloudapi.CreateListenerWithContext (cloud (Scenario.controller None))
        (world Scenario.start)
        {| elbv2.CreateListenerInput.LoadBalancerArn := Some (LBArn Scenario.requestA);
           elbv2.CreateListenerInput.Port := listenerConfig.Port Scenario.configA;
           elbv2.CreateListenerInput.Protocol := listenerConfig.Protocol Scenario.configA;
           elbv2.CreateListenerInput.Certificates :=
             listenerConfig.Certificates Scenario.configA;
           elbv2.CreateListenerInput.SslPolicy := listenerConfig.SslPolicy Scenario.configA;
           elbv2.CreateListenerInput.DefaultActions :=
             listenerConfig.DefaultActions Scenario.configA |} = (w, r)
      ∧ newLSInstance (Scenario.controller None) (LBArn Scenario.requestA)
          Scenario.configA Scenario.start
        = (mkState w
             (calls Scenario.start
              ++ [CreateListenerCall
                    (createInput (LBArn Scenario.requestA) Scenario.configA)]),
           afterCreate r)
      ∧ Reconcile Scenario.Use Scenario.Default404Backend (Scenario.controller None)
          Scenario.requestA Scenario.start
        = match afterCreate r with
          | Returns (l, None) =>
              let '(w', err) :=
                rs.Reconcile (rulesController (Scenario.controller None)) w l
                  (Ingress Scenario.requestA) (IngressAnnos Scenario.requestA)
                  (TGGroup Scenario.requestA) in
              (mkState w'
                 (calls Scenario.start
                  ++ [CreateListenerCall
                        (createInput (LBArn Scenario.requestA) Scenario.configA);
                      RulesReconcileCall l (Ingress Scenario.requestA)
                        (IngressAnnos Scenario.requestA) (TGGroup Scenario.requestA)]),
               Returns (match err with
                        | Some err => Some ("failed to reconcile rules due to " +:+ err)
                        | None => None
                        end))
          | Returns (_, Some err) =>
              (mkState w
                 (calls Scenario.start
                  ++ [CreateListenerCall
                        (createInput (LBArn Scenario.requestA) Scenario.configA)]),
               Returns (Some ("failed to create listener due to " +:+ err)))
          | Panics p =>
              (mkState w
                 (calls Scenario.start
                  ++ [CreateListenerCall
                        (createInput (LBArn Scenario.requestA) Scenario.configA)]),
               Panics p)
          end.
Proof.
  apply (Reconcile_create_one_call Scenario.Use Scenario.Default404Backend
           (Scenario.controller None) Scenario.requestA Scenario.configA Scenario.start);
    vm_compute; reflexivity.
Defined.

Lemma Reconcile_create_failure_scenarioA :
  Reconcile Scenario.Use Scenario.Default404Backend (Scenario.failingController "denied")
    Scenario.requestA Scenario.start
  = (mkState []
       (calls Scenario.start
        ++ [CreateListenerCall (createInput (LBArn Scenario.requestA) Scenario.configA)]),
     Returns (Some ("failed to create listener due to " +:+ "denied"))).
Proof.
  apply (Reconcile_create_failure Scenario.Use Scenario.Default404Backend
           (Scenario.failingController "denied") Scenario.requestA Scenario.configA
           Scenario.start [] None "denied");
    vm_compute; reflexivity.
Defined.

Lemma Reconcile_create_no_listener_scenarioA :
  Reconcile Scenario.Use Scenario.Default404Backend Scenario.emptyController
    Scenario.requestA Scenario.start
  = (mkState []
       (calls Scenario.start
        ++ [CreateListenerCall (createInput (LBArn Scenario.requestA) Scenario.configA)]),
     Panics (noListenerPanic
               (elbv2.CreateListenerOutput.Listeners
                  <$> Some (elbv2.CreateListenerOutput.mk (Some []))))).
Proof.
  apply (Reconcile_create_no_listener Scenario.Use Scenario.Default404Backend
           Scenario.emptyController Scenario.requestA Scenario.configA
           Scenario.start [] (Some (elbv2.CreateListenerOutput.mk (Some [])))).
  - reflexivity.
  - vm_compute. reflexivity.
  - reflexivity.
  - right. right. reflexivity.
Defined.

(** ** The update path *)

Section UpdatePath.

Context {W : Type}.
Variable Use : string -> bool.
Variable Default404Backend : extensions.IngressBackend.
Variable controller : defaultController W.

(** X4. When the update call for a drifted listener fails, the update
    stage returns the listener it was given together with the cloud's
    error, and [Reconcile] returns that error under the context "failed to
    reconcile listener due to " and stops: the rules controller is not
    called. *)
Theorem Reconcile_update_failure options existing config (s : state W) w output e :
  Instance_ options = Some existing →
  buildListenerConfig Use Default404Backend options = Returns (config, None) →
  drift existing config →
  cloudapi.ModifyListenerWithContext (cloud controller) (world s)
    (modifyInput existing config) = (w, (output, Some e)) →
  reconcileLSInstance controller (Some existing) config s
  = (mkState w (calls s ++ fieldChecks existing config
                ++ [ModifyListenerCall (modifyInput existing config)]),
     Returns (Some existing, Some e))
  ∧ Reconcile Use Default404Backend controller options s
    = (mkState w (calls s ++ fieldChecks existing config
                  ++ [ModifyListenerCall (modifyInput existing config)]),
       Returns (Some ("failed to reconcile listener due to " +:+ e))).
Proof.
  intros Hi Hb Hd Hm.
  assert (Hr : reconcileLSInstance controller (Some existing) config s
               = (mkState w (calls s ++ fieldChecks existing config
                             ++ [ModifyListenerCall (modifyInput existing config)]),
                  Returns (Some existing, Some e))).
  { rewrite (reconcileLSInstance_drift _ _ _ _ Hd), Hm. reflexivity. }
  split; [exact Hr|].
  rewrite (Reconcile_existing _ _ _ _ _ _ _ Hi Hb), Hr. reflexivity.
Qed.

(** X5. When the update call for a drifted listener succeeds without a
    first listener (no response, or a nil or empty list of listeners),
    [Reconcile] panics after the call, and the rules controller is not
    called. *)
Theorem Reconcile_update_no_listener options existing config (s : state W) w output :
  Instance_ options = Some existing →
  buildListenerConfig Use Default404Backend options = Returns (config, None) →
  drift existing config →
  cloudapi.ModifyListenerWithContext (cloud controller) (world s)
    (modifyInput existing config) = (w, (output, None)) →
  noListener (elbv2.ModifyListenerOutput.Listeners <$> output) →
  Reconcile Use Default404Backend controller options s
  = (mkState w (calls s ++ fieldChecks existing config
                ++ [ModifyListenerCall (modifyInput existing config)]),
     Panics (noListenerPanic (elbv2.ModifyListenerOutput.Listeners <$> output))).
Proof.
  intros Hi Hb Hd Hm Hn.
  rewrite (Reconcile_existing _ _ _ _ _ _ _ Hi Hb),
    (reconcileLSInstance_drift _ _ _ _ Hd), Hm.
  destruct output as [[listeners]|]; [|reflexivity].
  destruct Hn as [Hn|[Hn|Hn]]; cbn in Hn; simplify_eq; reflexivity.
Qed.

End UpdatePath.

(** X6. The drift check reads the five compared fields of the listener
    only: listeners that agree on port, protocol, certificates, SSL policy
    and default actions get the same answer, with the same comparisons,
    whatever their own and their load balancer's identifiers are. *)
Theorem LSInstanceNeedsModification_five_fields {W : Type}
    (i1 i2 : elbv2.Listener.t) (config : listenerConfig.t) (s : state W) :
  elbv2.Listener.Port i1 = elbv2.Listener.Port i2 →
  elbv2.Listener.Protocol i1 = elbv2.Listener.Protocol i2 →
  elbv2.Listener.Certificates i1 = elbv2.Listener.Certificates i2 →
  elbv2.Listener.SslPolicy i1 = elbv2.Listener.SslPolicy i2 →
  elbv2.Listener.DefaultActions i1 = elbv2.Listener.DefaultActions i2 →
  LSInstanceNeedsModification (Some i1) config s
  = LSInstanceNeedsModification (Some i2) config s.
Proof.
  intros H1 H2 H3 H4 H5. rewrite !LSInstanceNeedsModification_run.
  destruct i1, i2. cbn in H1, H2, H3, H4, H5. subst. reflexivity.
Qed.

Lemma Reconcile_update_failure_scenarioD :
  reconcileLSInstance (Scenario.failingController "denied")
    (Some (Scenario.listenerA 8080)) Scenario.configA Scenario.start
  = (mkState []
       (calls Scenario.start ++ fieldChecks (Scenario.listenerA 8080) Scenario.configA
        ++ [ModifyListenerCall (modifyInput (Scenario.listenerA 8080) Scenario.configA)]),
     Returns (Some (Scenario.listenerA 8080), Some "denied"))
  ∧ Reconcile Scenario.Use Scenario.Default404Backend (Scenario.failingController "denied")
      Scenario.requestD Scenario.start
    = (mkState []
         (calls Scenario.start ++ fieldChecks (Scenario.listenerA 8080) Scenario.configA
          ++ [ModifyListenerCall (modifyInput (Scenario.listenerA 8080) Scenario.configA)]),
       Returns (Some ("failed to reconcile listener due to " +:+ "denied"))).
Proof.
  apply (Reconcile_update_failure Scenario.Use Scenario.Default404Backend
           (Scenario.failingController "denied") Scenario.requestD
           (Scenario.listenerA 8080) Scenario.configA Scenario.start [] None "denied").
  - reflexivity.
  - vm_compute. reflexivity.
  - left. vm_compute. intros H. discriminate H.
  - reflexivity.
Defined.

Lemma Reconcile_update_no_listener_scenarioD :
  Reconcile Scenario.Use Scenario.Default404Backend Scenario.emptyController
    Scenario.requestD Scenario.start
  = (mkState []
       (calls Scenario.start ++ fieldChecks (Scenario.listenerA 8080) Scenario.configA
        ++ [ModifyListenerCall (modifyInput (Scenario.listenerA 8080) Scenario.configA)]),
     Panics (noListenerPanic
               (elbv2.ModifyListenerOutput.Listeners
                  <$> Some (elbv2.ModifyListenerOutput.mk (Some []))))).
Proof.
  apply (Reconcile_update_no_listener Scenario.Use Scenario.Default404Backend
           Scenario.emptyController Scenario.requestD (Scenario.listenerA 8080)
           Scenario.configA Scenario.start []
           (Some (elbv2.ModifyListenerOutput.mk (Some [])))).
  - reflexivity.
  - vm_compute. reflexivity.
  - left. vm_compute. intros H. discriminate H.
  - reflexivity.
  - right. right. reflexivity.
Defined.

Lemma LSInstanceNeedsModification_five_fields_created :
  LSInstanceNeedsModification (Some Scenario.createdA) Scenario.configA Scenario.start
  = LSInstanceNeedsModification (Some (Scenario.listenerA 80)) Scenario.configA
      Scenario.start.
Proof.
  apply (LSInstanceNeedsModification_five_fields Scenario.createdA
           (Scenario.listenerA 80) Scenario.configA Scenario.start);
    reflexivity.
Defined.

(** ** More on the builders *)

Section Builders.

Variable Use : string -> bool.
Variable Default404Backend : extensions.IngressBackend.

(** X7. Every configuration the builder returns has the port and the
    scheme of the request's port descriptor as port and protocol; its
    default actions are those of the resolver when the resolver succeeded,
    and nil when the resolver's error is returned with it. *)
Theorem buildListenerConfig_port_protocol_actions options config err :
  buildListenerConfig Use Default404Backend options = Returns (config, err) →
  listenerConfig.Port config = Some (loadbalancer.Port (Port options))
  ∧ listenerConfig.Protocol config = Some (loadbalancer.Scheme (Port options))
  ∧ ∃ actions,
      buildDefaultActions Use Default404Backend options = Returns (actions, err)
      ∧ listenerConfig.DefaultActions config
        = match err with
          | None => actions
          | Some _ => None
          end.
Proof.
  unfold buildListenerConfig.
  case_bool_decide as Hs.
  - destruct (IngressAnnos options) as [annos|]; [|discriminate].
    cbn [deref mbind outcome_bind].
    destruct (annotations.Listener annos) as [l|]; [|discriminate].
    cbn [deref mbind outcome_bind].
    destruct (listener.CertificateArn _) as [arn|], (listener.SslPolicy _) as [policy|];
      destruct (buildDefaultActions _ _ _) as [[actions [e|]]|];
      cbn; unfold mret, outcome_ret; intros H; simplify_eq; cbn; eauto.
  - destruct (buildDefaultActions _ _ _) as [[actions [e|]]|];
      cbn; unfold mret, outcome_ret; intros H; simplify_eq; cbn; eauto.
Qed.

(** X8. The builder panics exactly when the request has no ingress; or
    the listener is an HTTPS listener and the annotations, or their
    listener part, are nil; or the default backend asks for a custom
    action and the annotations are nil or [GetAction] panics (as it does
    on a nil action part).  The panic is a nil dereference, or that of
    [GetAction]. *)
Theorem buildListenerConfig_panics_iff options :
  ((∃ p, buildListenerConfig Use Default404Backend options = Panics p)
   ↔ Ingress options = None
     ∨ (loadbalancer.Scheme (Port options) = elbv2.ProtocolEnumHttps
        ∧ (IngressAnnos options = None
           ∨ ∃ annos, IngressAnnos options = Some annos
                      ∧ annotations.Listener annos = None))
     ∨ (∃ ingress,
          Ingress options = Some ingress
          ∧ Use (intstr.String_
                   (extensions.ServicePort
                      (effectiveBackend Default404Backend ingress))) = true
          ∧ (IngressAnnos options = None
             ∨ ∃ annos p,
                 IngressAnnos options = Some annos
                 ∧ action.GetAction (annotations.Action annos)
                     (extensions.ServiceName
                        (effectiveBackend Default404Backend ingress)) = Panics p)))
  ∧ ∀ p, buildListenerConfig Use Default404Backend options = Panics p →
         p = NilDereference
         ∨ ∃ ingress annos,
             Ingress options = Some ingress
             ∧ IngressAnnos options = Some annos
             ∧ action.GetAction (annotations.Action annos)
                 (extensions.ServiceName
                    (effectiveBackend Default404Backend ingress)) = Panics p.
Proof.
  unfold buildListenerConfig.
  destruct (Ingress options) as [ingress|] eqn:Hi.
  - rewrite (buildDefaultActions_run _ _ _ _ Hi). cbn zeta.
    destruct (IngressAnnos options) as [annos|] eqn:Ha.
    + case_bool_decide as Hs; cbn [deref mbind outcome_bind].
      * destruct (annotations.Listener annos) as [l|] eqn:Hl;
          cbn [deref mbind outcome_bind].
        -- destruct (Use _) eqn:Hu.
           ++ destruct (action.GetAction _ _) as [[a [e|]]|q] eqn:Hg; cbn;
                unfold mret, outcome_ret.
              ** split; [split|]; [intros [p Hp]; discriminate | | intros p Hp; discriminate].
                 intros [Hc|[(_ & [Hc|(annos' & Hc & Hl')])
                            |(ingress' & Hc & _ & [Hc'|(annos' & p & Hc' & Hg')])]];
                   simplify_eq; congruence.
              ** split; [split|]; [intros [p Hp]; discriminate | | intros p Hp; discriminate].
                 intros [Hc|[(_ & [Hc|(annos' & Hc & Hl')])
                            |(ingress' & Hc & _ & [Hc'|(annos' & p & Hc' & Hg')])]];
                   simplify_eq; congruence.
              ** split; [split|].
                 --- intros _. right. right. exists ingress. eauto 10.
                 --- eauto.
                 --- intros p [= <-]. right. eauto 10.
           ++ destruct (_ !! _) as [targetGroup|]; cbn; unfold mret, outcome_ret;
                (split; [split|];
                   [intros [p Hp]; discriminate | | intros p Hp; discriminate]);
                intros [Hc|[(_ & [Hc|(annos' & Hc & Hl')])
                           |(ingress' & Hc & Hu' & _)]];
                simplify_eq; congruence.
        -- split; [split|]; [intros _; right; left; eauto 10 | eauto
                             | intros p [= <-]; by left].
      * destruct (Use _) eqn:Hu.
        -- destruct (action.GetAction _ _) as [[a [e|]]|q] eqn:Hg; cbn;
             unfold mret, outcome_ret.
           ++ split; [split|]; [intros [p Hp]; discriminate | | intros p Hp; discriminate].
              intros [Hc|[(Hc & _)|(ingress' & Hc & _ & [Hc'|(annos' & p & Hc' & Hg')])]];
                simplify_eq; congruence.
           ++ split; [split|]; [intros [p Hp]; discriminate | | intros p Hp; discriminate].
              intros [Hc|[(Hc & _)|(ingress' & Hc & _ & [Hc'|(annos' & p & Hc' & Hg')])]];
                simplify_eq; congruence.
           ++ split; [split|].
              ** intros _. right. right. exists ingress. eauto 10.
              ** eauto.
              ** intros p [= <-]. right. eauto 10.
        -- destruct (_ !! _) as [targetGroup|]; cbn; unfold mret, outcome_ret;
             (split; [split|];
                [intros [p Hp]; discriminate | | intros p Hp; discriminate]);
             intros [Hc|[(Hc & _)|(ingress' & Hc & Hu' & _)]];
             simplify_eq; congruence.
    + case_bool_decide as Hs; cbn [deref mbind outcome_bind].
      * split; [split|]; [intros _; right; left; eauto | eauto
                          | intros p [= <-]; by left].
      * destruct (Use _) eqn:Hu; cbn.
        -- split; [split|]; [intros _; right; right; eauto 10 | eauto
                             | intros p [= <-]; by left].
        -- destruct (_ !! _) as [targetGroup|]; cbn; unfold mret, outcome_ret;
             (split; [split|];
                [intros [p Hp]; discriminate | | intros p Hp; discriminate]);
             intros [Hc|[(Hc & _)|(ingress' & Hc & Hu' & _)]];
             simplify_eq; congruence.
  - rewrite (buildDefaultActions_nil_ingress _ _ _ Hi).
    destruct (IngressAnnos options) as [annos|] eqn:Ha;
      case_bool_decide as Hs; cbn [deref mbind outcome_bind];
      try (destruct (annotations.Listener annos) as [l|] eqn:Hl;
           cbn [deref mbind outcome_bind]);
      cbn;
      (split; [split; [auto | intros _; eexists; reflexivity]
              | intros p Hp; left; by simplify_eq]).
Qed.

(** X9. When the default backend asks for a custom action and the
    annotations fail to give one, the resolver returns no action and the
    annotations' error as it is, and an action that came with the error
    is dropped. *)
Theorem buildDefaultActions_annotation_failure options ingress annos a e :
  Ingress options = Some ingress →
  IngressAnnos options = Some annos →
  Use (intstr.String_ (extensions.ServicePort (effectiveBackend Default404Backend ingress)))
  = true →
  action.GetAction (annotations.Action annos)
    (extensions.ServiceName (effectiveBackend Default404Backend ingress))
  = Returns (a, Some e) →
  buildDefaultActions Use Default404Backend options = Returns (None, Some e).
Proof.
  intros Hi Ha Hu Hg. rewrite (buildDefaultActions_run _ _ _ _ Hi). cbn zeta.
  by rewrite Hu, Ha, Hg.
Qed.

(** X10. For a default backend that asks for a custom action the target
    groups are not consulted: the resolver gives the same result whatever
    the target-group map is, also when the map has an entry for the
    backend. *)
Theorem buildDefaultActions_custom_ignores_target_groups options ingress tgGroup :
  Ingress options = Some ingress →
  Use (intstr.String_ (extensions.ServicePort (effectiveBackend Default404Backend ingress)))
  = true →
  buildDefaultActions Use Default404Backend (withTGGroup options tgGroup)
  = buildDefaultActions Use Default404Backend options.
Proof.
  intros Hi Hu.
  rewrite (buildDefaultActions_run _ _ options ingress Hi),
    (buildDefaultActions_run _ _ (withTGGroup options tgGroup) ingress Hi).
  cbn zeta. rewrite Hu. reflexivity.
Qed.

(** X11. For a default backend that does not ask for a custom action the
    annotations are not read: the resolver gives the same result whatever
    the annotations are, also when there are none. *)
Theorem buildDefaultActions_forward_ignores_annotations options ingress ingressAnnos :
  Ingress options = Some ingress →
  Use (intstr.String_ (extensions.ServicePort (effectiveBackend Default404Backend ingress)))
  = false →
  buildDefaultActions Use Default404Backend (withIngressAnnos options ingressAnnos)
  = buildDefaultActions Use Default404Backend options.
Proof.
  intros Hi Hu.
  rewrite (buildDefaultActions_run _ _ options ingress Hi),
    (buildDefaultActions_run _ _ (withIngressAnnos options ingressAnnos) ingress Hi).
  cbn zeta. rewrite Hu. reflexivity.
Qed.

(** X12. The configuration is built from the ingress, the annotations,
    the port descriptor and the target groups alone: requests that agree
    on these get the same configuration, whatever their load balancer and
    their existing listener are. *)
Theorem buildListenerConfig_desired_state_only o1 o2 :
  Ingress o1 = Ingress o2 →
  IngressAnnos o1 = IngressAnnos o2 →
  Port o1 = Port o2 →
  TGGroup o1 = TGGroup o2 →
  buildListenerConfig Use Default404Backend o1
  = buildListenerConfig Use Default404Backend o2.
Proof.
  intros H1 H2 H3 H4. destruct o1, o2. cbn in H1, H2, H3, H4. subst. reflexivity.
Qed.

End Builders.

Lemma buildListenerConfig_port_protocol_actions_scenarioB :
  listenerConfig.Port Scenario.configB = Some (loadbalancer.Port (Port Scenario.requestB))
  ∧ listenerConfig.Protocol Scenario.configB
    = Some (loadbalancer.Scheme (Port Scenario.requestB))
  ∧ ∃ actions,
      buildDefaultActions Scenario.Use Scenario.Default404Backend Scenario.requestB
      = Returns (actions, None)
      ∧ listenerConfig.DefaultActions Scenario.configB = actions.
Proof.
  apply (buildListenerConfig_port_protocol_actions Scenario.Use
           Scenario.Default404Backend Scenario.requestB Scenario.configB None).
  vm_compute. reflexivity.
Defined.

Lemma buildListenerConfig_panics_iff_noAnnosHttps :
  (∃ p, buildListenerConfig Scenario.Use Scenario.Default404Backend
          Scenario.requestNoAnnosHttps = Panics p)
  ∧ (∃ p, buildListenerConfig Scenario.Use Scenario.Default404Backend
            Scenario.requestNilListener = Panics p)
  ∧ (∃ p, buildListenerConfig Scenario.Use Scenario.Default404Backend
            Scenario.requestNilAction = Panics p).
Proof.
  split; [|split].
  - apply (proj2 (proj1 (buildListenerConfig_panics_iff Scenario.Use
                           Scenario.Default404Backend Scenario.requestNoAnnosHttps))).
    right. left. split; [reflexivity|]. left. reflexivity.
  - apply (proj2 (proj1 (buildListenerConfig_panics_iff Scenario.Use
                           Scenario.Default404Backend Scenario.requestNilListener))).
    right. left. split; [reflexivity|]. right. eexists. split; reflexivity.
  - apply (proj2 (proj1 (buildListenerConfig_panics_iff Scenario.Use
                           Scenario.Default404Backend Scenario.requestNilAction))).
    right. right. eexists. split; [reflexivity|]. split; [vm_compute; reflexivity|].
    right. eexists _, _. split; reflexivity.
Defined.

Lemma buildDefaultActions_annotation_failure_custom :
  buildDefaultActions Scenario.Use Scenario.Default404Backend Scenario.requestCustom
  = Returns (None, Some "no action annotation for ssl-redirect").
Proof.
  apply (buildDefaultActions_annotation_failure Scenario.Use Scenario.Default404Backend
           Scenario.requestCustom
           (extensions.mkIngress (extensions.mkSpec (Some Scenario.customBackend)))
           (Scenario.annos None None) None "no action annotation for ssl-redirect");
    vm_compute; reflexivity.
Defined.

Lemma buildDefaultActions_custom_ignores_target_groups_custom :
  buildDefaultActions Scenario.Use Scenario.Default404Backend
    (withTGGroup Scenario.requestCustom (tg.mkGroup ∅))
  = buildDefaultActions Scenario.Use Scenario.Default404Backend Scenario.requestCustom.
Proof.
  apply (buildDefaultActions_custom_ignores_target_groups Scenario.Use
           Scenario.Default404Backend Scenario.requestCustom
           (extensions.mkIngress (extensions.mkSpec (Some Scenario.customBackend)))
           (tg.mkGroup ∅));
    vm_compute; reflexivity.
Defined.

Lemma buildDefaultActions_forward_ignores_annotations_scenarioA :
  buildDefaultActions Scenario.Use Scenario.Default404Backend
    (withIngressAnnos Scenario.requestA None)
  = buildDefaultActions Scenario.Use Scenario.Default404Backend Scenario.requestA.
Proof.
  apply (buildDefaultActions_forward_ignores_annotations Scenario.Use
           Scenario.Default404Backend Scenario.requestA
           (extensions.mkIngress (extensions.mkSpec (Some Scenario.svcA))) None);
    vm_compute; reflexivity.
Defined.

Lemma buildListenerConfig_desired_state_only_scenarios :
  buildListenerConfig Scenario.Use Scenario.Default404Backend Scenario.requestA
  = buildListenerConfig Scenario.Use Scenario.Default404Backend Scenario.requestD.
Proof.
  apply (buildListenerConfig_desired_state_only Scenario.Use Scenario.Default404Backend
           Scenario.requestA Scenario.requestD);
    reflexivity.
Defined.

(** ** More on the whole reconciliation *)

Section Budget.

Context {W : Type}.
Variable Use : string -> bool.
Variable Default404Backend : extensions.IngressBackend.
Variable controller : defaultController W.

(** The calls of one reconciliation, by path. *)
Lemma Reconcile_trace options (s : state W) :
  ∃ t, calls (Reconcile Use Default404Backend controller options s).1 = calls s ++ t
       ∧ (t = []
          ∨ (∃ i, t = [CreateListenerCall i])
          ∨ (∃ i l, t = [CreateListenerCall i;
                         RulesReconcileCall l (Ingress options) (IngressAnnos options)
                           (TGGroup options)])
          ∨ (∃ existing config,
               t = fieldChecks existing config
                   ++ [RulesReconcileCall (Some existing) (Ingress options)
                         (IngressAnnos options) (TGGroup options)])
          ∨ (∃ existing config i,
               t = fieldChecks existing config ++ [ModifyListenerCall i])
          ∨ (∃ existing config i l,
               t = fieldChecks existing config
                   ++ [ModifyListenerCall i;
                       RulesReconcileCall l (Ingress options) (IngressAnnos options)
                         (TGGroup options)])).
Proof.
  destruct (buildListenerConfig Use Default404Backend options)
    as [[config [e|]]|p] eqn:Hb.
  - exists []. unfold Reconcile, lift, mbind, M_bind. rewrite Hb. cbn.
    rewrite app_nil_r. auto.
  - destruct (Instance_ options) as [existing|] eqn:Hi.
    + rewrite (Reconcile_existing _ _ _ _ _ _ _ Hi Hb).
      destruct (decide (drift existing config)) as [Hd|Hd].
      * rewrite (reconcileLSInstance_drift _ _ _ _ Hd).
        destruct (cloudapi.ModifyListenerWithContext _ _ _) as [w r].
        destruct (afterModify existing r) as [[l [err|]]|p]; cbn [fst calls world];
          try (eexists; split; [reflexivity|]; do 4 right; left; eauto).
        destruct (rs.Reconcile _ _ _ _ _ _) as [w' err]. cbn [fst calls].
        eexists. rewrite <- !app_assoc. split; [reflexivity|].
        do 5 right. cbn. eauto.
      * rewrite (reconcileLSInstance_no_drift _ _ _ _ Hd). cbn [world calls].
        destruct (rs.Reconcile _ _ _ _ _ _) as [w' err]. cbn [fst calls].
        eexists. rewrite <- !app_assoc. split; [reflexivity|].
        do 3 right. left. eauto.
    + rewrite (Reconcile_new _ _ _ _ _ _ Hi Hb), newLSInstance_run.
      destruct (cloudapi.CreateListenerWithContext _ _ _) as [w r].
      destruct (afterCreate r) as [[l [err|]]|p]; cbn [fst calls world];
        try (eexists; split; [reflexivity|]; right; left; eauto).
      destruct (rs.Reconcile _ _ _ _ _ _) as [w' err]. cbn [fst calls].
      eexists. rewrite <- !app_assoc. split; [reflexivity|].
      do 2 right. left. cbn. eauto.
  - exists []. unfold Reconcile, lift, mbind, M_bind. rewrite Hb. cbn.
    rewrite app_nil_r. auto.
Qed.

(** X13. One reconciliation only adds to the trace, and what it adds is
    at most one call that changes a listener (a create call or an update
    call, never both) and at most one call of the rules controller, which
    is then the last call. *)
Theorem Reconcile_call_budget options (s : state W) :
  ∃ t,
    calls (Reconcile Use Default404Backend controller options s).1 = calls s ++ t
    ∧ (List.length (createCalls t) + List.length (modifyCalls t) ≤ 1)%nat
    ∧ (List.length (rulesCalls t) ≤ 1)%nat
    ∧ (rulesCalls t ≠ [] →
       ∃ l, last t = Some (RulesReconcileCall l (Ingress options) (IngressAnnos options)
                             (TGGroup options))).
Proof.
  destruct (Reconcile_trace options s) as (t & Ht & Hc). exists t. split; [exact Ht|].
  destruct Hc as [->|[(i & ->)|[(i & l & ->)|[(existing & config & ->)
                 |[(existing & config & i & ->)|(existing & config & i & l & ->)]]]]];
    cbn; (split; [lia|]); (split; [lia|]); intros Hr; try done; eauto.
Qed.

(** X14. Without a configuration built without error, [Reconcile] calls
    nothing and does not succeed. *)
Theorem Reconcile_no_call_unless_built options (s : state W) :
  (∀ config,
     buildListenerConfig Use Default404Backend options ≠ Returns (config, None)) →
  (Reconcile Use Default404Backend controller options s).1 = s
  ∧ (Reconcile Use Default404Backend controller options s).2 ≠ Returns None.
Proof.
  intros Hn. unfold Reconcile, lift, mbind at 1, M_bind at 1.
  destruct (buildListenerConfig _ _ _) as [[config [e|]]|p]; cbn.
  - done.
  - by destruct (Hn config).
  - done.
Qed.

(** X15. An error that [Reconcile] returns comes from exactly one of its
    four stages, and is that stage's error under that stage's context:
    the builder's error, after which nothing was called; the error of the
    create call for a request without listener; the error of the update
    call for a request whose listener has drifted; or the error of the
    rules controller, called for the listener of a listener stage that
    succeeded. *)
Theorem Reconcile_error_kinds options (s s' : state W) e :
  Reconcile Use Default404Backend controller options s = (s', Returns (Some e)) →
  (∃ config cause,
     buildListenerConfig Use Default404Backend options = Returns (config, Some cause)
     ∧ s' = s
     ∧ e = "failed to build listener config due to " +:+ cause)
  ∨ (∃ config w resp cause,
       buildListenerConfig Use Default404Backend options = Returns (config, None)
       ∧ Instance_ options = None
       ∧ cloudapi.CreateListenerWithContext (cloud controller) (world s)
           (createInput (LBArn options) config) = (w, (resp, Some cause))
       ∧ s' = mkState w (calls s
                          ++ [CreateListenerCall (createInput (LBArn options) config)])
       ∧ e = "failed to create listener due to " +:+ cause)
  ∨ (∃ config existing w output cause,
       buildListenerConfig Use Default404Backend options = Returns (config, None)
       ∧ Instance_ options = Some existing
       ∧ drift existing config
       ∧ cloudapi.ModifyListenerWithContext (cloud controller) (world s)
           (modifyInput existing config) = (w, (output, Some cause))
       ∧ s' = mkState w (calls s ++ fieldChecks existing config
                          ++ [ModifyListenerCall (modifyInput existing config)])
       ∧ e = "failed to reconcile listener due to " +:+ cause)
  ∨ (∃ config s1 l w cause,
       buildListenerConfig Use Default404Backend options = Returns (config, None)
       ∧ match Instance_ options with
         | None => newLSInstance controller (LBArn options) config s
         | Some existing => reconcileLSInstance controller (Some existing) config s
         end = (s1, Returns (l, None))
       ∧ rs.Reconcile (rulesController controller) (world s1) l
           (Ingress options) (IngressAnnos options) (TGGroup options) = (w, Some cause)
       ∧ s' = mkState w (calls s1
                          ++ [RulesReconcileCall l (Ingress options) (IngressAnnos options)
                                (TGGroup options)])
       ∧ e = "failed to reconcile rules due to " +:+ cause).
Proof.
  intros H.
  destruct (buildListenerConfig Use Default404Backend options)
    as [[config [cause|]]|p] eqn:Hb.
  - left. revert H. unfold Reconcile, lift, mbind, M_bind. rewrite Hb. cbn.
    intros [= <- <-]. eexists _, _. split_and!; eauto.
  - right. destruct (Instance_ options) as [existing|] eqn:Hi.
    + right. rewrite (Reconcile_existing _ _ _ _ _ _ _ Hi Hb) in H.
      destruct (reconcileLSInstance controller (Some existing) config s)
        as [s1 [[l [cause|]]|p]] eqn:Hr; [| |discriminate].
      * left. simplify_eq.
        destruct (decide (drift existing config)) as [Hd|Hd].
        -- rewrite (reconcileLSInstance_drift _ _ _ _ Hd) in Hr.
           destruct (cloudapi.ModifyListenerWithContext _ _ _)
             as [w [output [cause'|]]] eqn:Hm.
           ++ cbn in Hr. simplify_eq. eexists _, _, _, _, _. split_and!; eauto.
           ++ destruct output as [[[[|l' rest]|]]|]; cbn in Hr; discriminate.
        -- rewrite (reconcileLSInstance_no_drift _ _ _ _ Hd) in Hr. discriminate.
      * right.
        destruct (rs.Reconcile (rulesController controller) (world s1) l
                    (Ingress options) (IngressAnnos options) (TGGroup options))
          as [w [cause|]] eqn:Hrules; [|discriminate].
        simplify_eq. eexists _, _, _, _, _. split_and!; eauto.
    + rewrite (Reconcile_new _ _ _ _ _ _ Hi Hb) in H.
      destruct (newLSInstance controller (LBArn options) config s)
        as [s1 [[l [cause|]]|p]] eqn:Hr; [| |discriminate].
      * left. simplify_eq.
        rewrite newLSInstance_run in Hr.
        destruct (cloudapi.CreateListenerWithContext _ _ _)
          as [w [resp [cause'|]]] eqn:Hc.
        -- cbn in Hr. simplify_eq. eexists _, _, _, _. split_and!; eauto.
        -- destruct resp as [[[[|l' rest]|]]|]; cbn in Hr; discriminate.
      * right. right.
        destruct (rs.Reconcile (rulesController controller) (world s1) l
                    (Ingress options) (IngressAnnos options) (TGGroup options))
          as [w [cause|]] eqn:Hrules; [|discriminate].
        simplify_eq. eexists _, _, _, _, _. split_and!; eauto.
  - revert H. unfold Reconcile, lift, mbind, M_bind. rewrite Hb. cbn. discriminate.
Qed.

End Budget.

Lemma buildListenerConfig_withInstance Use Default404Backend options instance :
  buildListenerConfig Use Default404Backend (withInstance options instance)
  = buildListenerConfig Use Default404Backend options.
Proof. destruct options. reflexivity. Qed.

Lemma matches_no_drift instance config : matches instance config → ¬ drift instance config.
Proof. unfold matches, drift. tauto. Qed.

Section Again.

Context {W : Type}.
Variable Use : string -> bool.
Variable Default404Backend : extensions.IngressBackend.
Variable controller : defaultController W.

(** X16. Reconciling twice.  When the create call of a first
    reconciliation answers with a listener that has the five fields it
    was asked for, a second reconciliation of the same request, now
    carrying that listener, changes nothing in the cloud: over both runs
    there is the one create call and no update call; the second run makes
    its five comparisons and calls the rules controller for the same
    listener. *)
Theorem Reconcile_again_no_change options config (s : state W) w resp l rest :
  Instance_ options = None →
  buildListenerConfig Use Default404Backend options = Returns (config, None) →
  cloudapi.CreateListenerWithContext (cloud controller) (world s)
    (createInput (LBArn options) config) = (w, (Some resp, None)) →
  elbv2.CreateListenerOutput.Listeners resp = Some (Some l :: rest) →
  matches l config →
  ∃ s1 r1 w2 r2,
    Reconcile Use Default404Backend controller options s = (s1, Returns r1)
    ∧ calls s1
      = calls s
        ++ [CreateListenerCall (createInput (LBArn options) config);
            RulesReconcileCall (Some l) (Ingress options) (IngressAnnos options)
              (TGGroup options)]
    ∧ Reconcile Use Default404Backend controller (withInstance options (Some l)) s1
      = (mkState w2
           (calls s1 ++ fieldChecks l config
            ++ [RulesReconcileCall (Some l) (Ingress options) (IngressAnnos options)
                  (TGGroup options)]),
         Returns r2).
Proof.
  intros Hi Hb Hc Hl Hm.
  rewrite (Reconcile_new _ _ _ _ _ _ Hi Hb), newLSInstance_run, Hc.
  cbn. rewrite Hl. cbn.
  destruct (rs.Reconcile _ _ _ _ _ _) as [w1 err1].
  eexists _, _. 
  assert (Hb' : buildListenerConfig Use Default404Backend (withInstance options (Some l))
                = Returns (config, None))
    by (by rewrite buildListenerConfig_withInstance).
  rewrite (Reconcile_existing Use Default404Backend controller
             (withInstance options (Some l)) l config _ eq_refl Hb').
  rewrite (reconcileLSInstance_no_drift _ _ _ _ (matches_no_drift _ _ Hm)).
  cbn [world calls withInstance Ingress IngressAnnos TGGroup].
  destruct (rs.Reconcile _ _ _ _ _ _) as [w2 err2].
  eexists w2, _. split; [reflexivity|]. split.
  - cbn. rewrite <- app_assoc. reflexivity.
  - cbn. rewrite <- !app_assoc. reflexivity.
Qed.

End Again.

Lemma Reconcile_call_budget_scenarioD :
  ∃ t,
    calls (Reconcile Scenario.Use Scenario.Default404Backend (Scenario.controller None)
             Scenario.requestD Scenario.start).1 = calls Scenario.start ++ t
    ∧ (List.length (createCalls t) + List.length (modifyCalls t) ≤ 1)%nat
    ∧ (List.length (rulesCalls t) ≤ 1)%nat
    ∧ (rulesCalls t ≠ [] →
       ∃ l, last t = Some (RulesReconcileCall l (Ingress Scenario.requestD)
                             (IngressAnnos Scenario.requestD) (TGGroup Scenario.requestD))).
Proof.
  exact (Reconcile_call_budget Scenario.Use Scenario.Default404Backend
           (Scenario.controller None) Scenario.requestD Scenario.start).
Defined.

Lemma Reconcile_no_call_unless_built_unresolved :
  (Reconcile Scenario.Use Scenario.Default404Backend (Scenario.controller None)
     Scenario.requestUnresolved Scenario.start).1 = Scenario.start
  ∧ (Reconcile Scenario.Use Scenario.Default404Backend (Scenario.controller None)
       Scenario.requestUnresolved Scenario.start).2 ≠ Returns None.
Proof.
  apply (Reconcile_no_call_unless_built Scenario.Use Scenario.Default404Backend
           (Scenario.controller None) Scenario.requestUnresolved Scenario.start).
  intros config H. vm_compute in H. discriminate H.
Defined.

Lemma Reconcile_error_kinds_rules_failure :
  (∃ config cause,
     buildListenerConfig Scenario.Use Scenario.Default404Backend Scenario.requestD
     = Returns (config, Some cause)
     ∧ (Reconcile Scenario.Use Scenario.Default404Backend
          (Scenario.controller (Some "throttled")) Scenario.requestD Scenario.start).1
       = Scenario.start
     ∧ "failed to reconcile rules due to throttled"
       = "failed to build listener config due to " +:+ cause)
  ∨ (∃ config w resp cause,
       buildListenerConfig Scenario.Use Scenario.Default404Backend Scenario.requestD
       = Returns (config, None)
       ∧ Instance_ Scenario.requestD = None
       ∧ cloudapi.CreateListenerWithContext
           (cloud (Scenario.controller (Some "throttled"))) (world Scenario.start)
           (createInput (LBArn Scenario.requestD) config) = (w, (resp, Some cause))
       ∧ (Reconcile Scenario.Use Scenario.Default404Backend
            (Scenario.controller (Some "throttled")) Scenario.requestD Scenario.start).1
         = mkState w (calls Scenario.start
                      ++ [CreateListenerCall
                            (createInput (LBArn Scenario.requestD) config)])
       ∧ "failed to reconcile rules due to throttled"
         = "failed to create listener due to " +:+ cause)
  ∨ (∃ config existing w output cause,
       buildListenerConfig Scenario.Use Scenario.Default404Backend Scenario.requestD
       = Returns (config, None)
       ∧ Instance_ Scenario.requestD = Some existing
       ∧ drift existing config
       ∧ cloudapi.ModifyListenerWithContext
           (cloud (Scenario.controller (Some "throttled"))) (world Scenario.start)
           (modifyInput existing config) = (w, (output, Some cause))
       ∧ (Reconcile Scenario.Use Scenario.Default404Backend
            (Scenario.controller (Some "throttled")) Scenario.requestD Scenario.start).1
         = mkState w (calls Scenario.start ++ fieldChecks existing config
                      ++ [ModifyListenerCall (modifyInput existing config)])
       ∧ "failed to reconcile rules due to throttled"
         = "failed to reconcile listener due to " +:+ cause)
  ∨ (∃ config s1 l w cause,
       buildListenerConfig Scenario.Use Scenario.Default404Backend Scenario.requestD
       = Returns (config, None)
       ∧ match Instance_ Scenario.requestD with
         | None =>
             newLSInstance (Scenario.controller (Some "throttled"))
               (LBArn Scenario.requestD) config Scenario.start
         | Some existing =>
             reconcileLSInstance (Scenario.controller (Some "throttled"))
               (Some existing) config Scenario.start
         end = (s1, Returns (l, None))
       ∧ rs.Reconcile (rulesController (Scenario.controller (Some "throttled")))
           (world s1) l (Ingress Scenario.requestD) (IngressAnnos Scenario.requestD)
           (TGGroup Scenario.requestD) = (w, Some cause)
       ∧ (Reconcile Scenario.Use Scenario.Default404Backend
            (Scenario.controller (Some "throttled")) Scenario.requestD Scenario.start).1
         = mkState w (calls s1
                      ++ [RulesReconcileCall l (Ingress Scenario.requestD)
                            (IngressAnnos Scenario.requestD) (TGGroup Scenario.requestD)])
       ∧ "failed to reconcile rules due to throttled"
         = "failed to reconcile rules due to " +:+ cause).
Proof.
  apply (Reconcile_error_kinds Scenario.Use Scenario.Default404Backend
           (Scenario.controller (Some "throttled")) Scenario.requestD Scenario.start
           (Reconcile Scenario.Use Scenario.Default404Backend
              (Scenario.controller (Some "throttled")) Scenario.requestD
              Scenario.start).1
           "failed to reconcile rules due to throttled").
  vm_compute. reflexivity.
Defined.

Lemma Reconcile_again_no_change_scenarioA :
  ∃ s1 r1 w2 r2,
    Reconcile Scenario.Use Scenario.Default404Backend (Scenario.controller None)
      Scenario.requestA Scenario.start = (s1, Returns r1)
    ∧ calls s1
      = calls Scenario.start
        ++ [CreateListenerCall (createInput (LBArn Scenario.requestA) Scenario.configA);
            RulesReconcileCall (Some Scenario.createdA) (Ingress Scenario.requestA)
              (IngressAnnos Scenario.requestA) (TGGroup Scenario.requestA)]
    ∧ Reconcile Scenario.Use Scenario.Default404Backend (Scenario.controller None)
        (withInstance Scenario.requestA (Some Scenario.createdA)) s1
      = (mkState w2
           (calls s1 ++ fieldChecks Scenario.createdA Scenario.configA
            ++ [RulesReconcileCall (Some Scenario.createdA) (Ingress Scenario.requestA)
                  (IngressAnnos Scenario.requestA) (TGGroup Scenario.requestA)]),
         Returns r2).
Proof.
  apply (Reconcile_again_no_change Scenario.Use Scenario.Default404Backend
           (Scenario.controller None) Scenario.requestA Scenario.configA Scenario.start
           [Scenario.createdA]
           (elbv2.CreateListenerOutput.mk (Some [Some Scenario.createdA]))
           Scenario.createdA []).
  - reflexivity.
  - vm_compute. reflexivity.
  - vm_compute. reflexivity.
  - reflexivity.
  - repeat split.
Defined.
